(** * basic-ml-app: the [/predict] request flow of [app/app.py]

    A shallow embedding of the module-level start-up code and of the two
    route handlers of [src/app/app.py], with the collaborators the module
    imports ([verify_token], [get_mongo_collection], [IntentClassifier],
    the driver's [insert_one], the system clock) taken as inputs.

    Conventions.
    - Python [str] is [string]; [str.lower]/[str.upper] are modelled on the
      ASCII letters and leave every other character unchanged.
    - A Python [dict] whose order is observable (the response body, the
      model registry) is an insertion-ordered association list with the
      update-in-place semantics of [d[k] = v]; [os.environ] is a [gmap].
    - A handler is a computation in a state-and-exception monad.  The state
      holds the handler's local [results] dictionary, which the database
      driver receives by reference, and the trace of collaborator calls.
    - A Python [float] returned by a model is finite (a rational) or one of
      [nan], [inf] and [-inf]; the clock reading is a rational.
    - [logger] calls do not influence control flow and are not modelled. *)

From Stdlib Require Import ZArith QArith Ascii String List Lia Sorting.Sorted.
From Stdlib Require Import Qround.
From stdpp Require Import base strings list gmap.

Local Open Scope string_scope.
Local Open Scope Z_scope.

(** ** Strings *)

Module Str.

Definition is_upper (c : ascii) : bool :=
    let n := N_of_ascii c in ((65 <=? n) && (n <=? 90))%N.

Definition is_lower (c : ascii) : bool :=
    let n := N_of_ascii c in ((97 <=? n) && (n <=? 122))%N.

Definition lower_char (c : ascii) : ascii :=
    if is_upper c then ascii_of_N (N_of_ascii c + 32) else c.

Definition upper_char (c : ascii) : ascii :=
    if is_lower c then ascii_of_N (N_of_ascii c - 32) else c.

Fixpoint map (f : ascii -> ascii) (s : string) : string :=
    match s with
    | EmptyString => EmptyString
    | String c s' => String (f c) (map f s')
    end.

  (** [s.lower()] and [s.upper()]. *)
Definition lower (s : string) : string := map lower_char s.
Definition upper (s : string) : string := map upper_char s.

  (** [s.endswith(suffix)]. *)
Definition endswith (suffix s : string) : bool :=
    let n := String.length s in
    let k := String.length suffix in
    (k <=? n)%nat && String.eqb (String.substring (n - k) k s) suffix.

  (** [s.replace(old, new)] for a non-empty [old]: occurrences are replaced
      from left to right and do not overlap.  [skip] counts the characters
      of the occurrence just replaced that are still to be dropped. *)
Fixpoint replace_from (old new : string) (skip : nat) (s : string) : string :=
    match s with
    | EmptyString => EmptyString
    | String c s' =>
        match skip with
        | S k => replace_from old new k s'
        | O =>
            if String.prefix old s
            then new ++ replace_from old new (String.length old - 1) s'
            else String c (replace_from old new 0 s')
        end
    end.

Definition replace (old new s : string) : string := replace_from old new 0 s.

  (** Equality up to case: both sides are lower-cased and compared. *)
Definition caseless_eq (a b : string) : bool := String.eqb (lower a) (lower b).

End Str.

(** ** Insertion-ordered dictionaries *)

Module Dict.

Section Ops.
Context {V : Type}.

Fixpoint get (d : list (string * V)) (k : string) : option V :=
      match d with
      | [] => None
      | (k', v) :: d' => if String.eqb k' k then Some v else get d' k
      end.

    (** [d[k] = v]: an existing key keeps its position. *)
Fixpoint set (d : list (string * V)) (k : string) (v : V) : list (string * V) :=
      match d with
      | [] => [(k, v)]
      | (k', v') :: d' =>
          if String.eqb k' k then (k, v) :: d' else (k', v') :: set d' k v
      end.

    (** [d.pop(k)] on a dictionary whose keys are distinct. *)
Fixpoint pop (d : list (string * V)) (k : string) : list (string * V) :=
      match d with
      | [] => []
      | (k', v') :: d' =>
          if String.eqb k' k then d' else (k', v') :: pop d' k
      end.

Definition keys (d : list (string * V)) : list string := List.map fst d.

Definition mem (d : list (string * V)) (k : string) : bool :=
      match get d k with Some _ => true | None => false end.

End Ops.

End Dict.

(** ** Values held by the [results] dictionary *)

(** A Python [float]: a finite value, carried as the rational it denotes,
    or one of [nan], [inf] and [-inf]. *)
Inductive pyfloat : Type :=
| Finite (q : Q)
| NaN
| PosInf
| NegInf.

Definition is_finite (f : pyfloat) : bool :=
  match f with
  | Finite _ => true
  | _ => false
  end.

(** The values that [predict] stores into [results] or that the driver adds
    to it.  [VObjectId] is the driver's [bson.ObjectId], given by its
    hexadecimal form. *)
#[local] Set Warnings "-register-all".
Inductive value : Type :=
| VStr (s : string)
| VInt (z : Z)
| VFloat (f : pyfloat)
| VObjectId (hex : string)
| VDict (d : list (string * value)).

(** What [json.dumps(..., allow_nan=False)] accepts: every leaf but an
    [ObjectId] and a float that is not finite. *)
Fixpoint jsonable (v : value) : bool :=
  match v with
  | VStr _ | VInt _ => true
  | VFloat f => is_finite f
  | VObjectId _ => false
  | VDict d => forallb (fun kv => match kv with (_, x) => jsonable x end) d
  end.

(** [str(v)] for the values stored under ["_id"]: an [ObjectId] prints as
    its hexadecimal form, a string as itself.  Only the driver writes
    ["_id"], and it writes an [ObjectId]. *)
Definition py_str (v : value) : string :=
  match v with
  | VObjectId hex => hex
  | VStr s => s
  | _ => ""
  end.

(** ** Exceptions and the handler monad *)

(** [HTTPException] is raised by the application only.  [External] stands
    for any [Exception] raised inside a collaborator, with [str(e)]. *)
Inductive exn : Type :=
| HTTPException (status_code : Z) (detail : string)
| NameError (name : string)
| KeyError (key : string)
| TypeError (msg : string)
| ValueError (msg : string)
| External (msg : string).

(** The exception [json.dumps] raises on a value it does not accept, which
    is that of the first leaf it cannot render: [ValueError] for a float
    that is not finite, [TypeError] for an [ObjectId]. *)
Fixpoint render_error (v : value) : exn :=
  match v with
  | VFloat _ => ValueError "Out of range float values are not JSON compliant"
  | VDict d =>
      (fix first (l : list (string * value)) : exn :=
         match l with
         | [] => TypeError "Object of type ObjectId is not JSON serializable"
         | (_, x) :: l' => if jsonable x then first l' else render_error x
         end) d
  | _ => TypeError "Object of type ObjectId is not JSON serializable"
  end.

Inductive result (A : Type) : Type :=
| Ok (a : A)
| Raise (e : exn).
Arguments Ok {A} a.
Arguments Raise {A} e.

(** What a call into a collaborator does. *)
Inductive outcome (A : Type) : Type :=
| Returns (a : A)
| Raises (msg : string).
Arguments Returns {A} a.
Arguments Raises {A} msg.

(** Calls that leave the module, in the order they are made. *)
Inductive event : Type :=
| EvVerifyToken
| EvModelPredict (model_name text : string)
| EvInsertOne (document : list (string * value)).

Record State : Type := mkState {
  results : list (string * value);
  trace : list event
}.

Definition initial : State := {| results := []; trace := [] |}.

Definition M (A : Type) : Type := State -> result A * State.

Definition ret {A} (a : A) : M A := fun st => (Ok a, st).

Definition raise {A} (e : exn) : M A := fun st => (Raise e, st).

Definition bind {A B} (m : M A) (k : A -> M B) : M B :=
  fun st =>
    match m st with
    | (Ok a, st') => k a st'
    | (Raise e, st') => (Raise e, st')
    end.

(** [try: body except Exception as e: handler(e)].  The handler runs in the
    state the body left behind. *)
Definition try_except {A} (body : M A) (handler : exn -> M A) : M A :=
  fun st =>
    match body st with
    | (Ok a, st') => (Ok a, st')
    | (Raise e, st') => handler e st'
    end.

Definition emit (ev : event) : M unit :=
  fun st => (Ok tt, {| results := results st; trace := trace st ++ [ev] |}).

Definition call {A} (o : outcome A) : M A :=
  match o with
  | Returns a => ret a
  | Raises msg => raise (External msg)
  end.

Declare Scope py_scope.
Delimit Scope py_scope with py.
Notation "x <- m ;; k" := (bind m (fun x => k))
  (at level 100, m at next level, right associativity) : py_scope.
Notation "m ;; k" := (bind m (fun _ => k))
  (at level 100, right associativity) : py_scope.
Local Open Scope py_scope.

(** Operations on the local [results] dictionary. *)
Definition results_assign (d : list (string * value)) : M unit :=
  fun st => (Ok tt, {| results := d; trace := trace st |}).

Definition results_getitem (k : string) : M value :=
  fun st =>
    match Dict.get (results st) k with
    | Some v => (Ok v, st)
    | None => (Raise (KeyError k), st)
    end.

Definition results_setitem (k : string) (v : value) : M unit :=
  fun st => (Ok tt, {| results := Dict.set (results st) k v; trace := trace st |}).

Definition results_pop (k : string) : M unit :=
  fun st =>
    match Dict.get (results st) k with
    | Some _ => (Ok tt, {| results := Dict.pop (results st) k; trace := trace st |})
    | None => (Raise (KeyError k), st)
    end.

Definition results_load : M (list (string * value)) :=
  fun st => (Ok (results st), st).

(** ** Collaborators *)

(** [IntentClassifier]: [predict(text)] returns [(top_intent, all_probs)]
    or raises. *)
Record IntentClassifier : Type := mkClassifier {
  model_predict : string -> outcome (string * list (string * pyfloat))
}.

(** What one [collection.insert_one(document)] call does: whether the
    driver stored a generated [ObjectId] under ["_id"] in the caller's
    document, and whether the call returned or raised. *)
Record Insert : Type := mkInsert {
  stored_id : option string;
  insert_result : outcome unit
}.

(** The collaborators as they behave during one request: [verify_token()],
    [collection.insert_one], and the value of
    [datetime.now(timezone.utc).timestamp()]. *)
Record Collab : Type := mkCollab {
  verify_token : outcome string;
  insert_one : list (string * value) -> Insert;
  now : Q
}.

(** What module start-up reads: [os.environ] after [load_dotenv()],
    [get_mongo_collection], the listing of the models directory and the
    [IntentClassifier] constructor (by file name). *)
Record Boot : Type := mkBoot {
  environ : gmap string string;
  get_mongo_collection : string -> outcome (option string);
  listdir : outcome (list string);
  load_classifier : string -> outcome IntentClassifier
}.

(** ** Module globals and start-up *)

(** A module-level name is unbound until an assignment to it has run. *)
Inductive binding (A : Type) : Type :=
| Unbound
| Bound (a : A).
Arguments Unbound {A}.
Arguments Bound {A} a.

Record Globals : Type := mkGlobals {
  ENV : string;
  collection : binding (option string);
  MODELS : list (string * IntentClassifier)
}.

(** [os.getenv(key, default)]. *)
Definition getenv (env : gmap string string) (key default : string) : string :=
  match env !! key with
  | Some v => v
  | None => default
  end.

(** Line 23: [ENV = os.getenv("ENV", "prod").lower()]. *)
Definition read_ENV (env : gmap string string) : string :=
  Str.lower (getenv env "ENV" "prod").

(** Lines 49-54: the assignment to [collection] is inside the [try]; the
    [except] branch only logs. *)
Definition init_collection (b : Boot) (env_mode : string) : binding (option string) :=
  match get_mongo_collection b (Str.upper env_mode ++ "_intent_logs") with
  | Returns c => Bound c
  | Raises _ => Unbound
  end.

(** Lines 81-92: the loop over [model_files]; a constructor that raises
    leaves the loop, and [MODELS] keeps what was stored so far. *)
Fixpoint load_loop (b : Boot) (model_files : list string)
    (models : list (string * IntentClassifier)) : list (string * IntentClassifier) :=
  match model_files with
  | [] => models
  | model_file :: rest =>
      let model_name := Str.replace ".keras" "" model_file in
      match load_classifier b model_file with
      | Returns m => load_loop b rest (Dict.set models model_name m)
      | Raises _ => models
      end
  end.

(** Lines 72-97. *)
Definition load_models (b : Boot) : list (string * IntentClassifier) :=
  match listdir b with
  | Returns files => load_loop b (List.filter (Str.endswith ".keras") files) []
  | Raises _ => []
  end.

Definition startup (b : Boot) : Globals :=
  let env_mode := read_ENV (environ b) in
  {| ENV := env_mode;
     collection := init_collection b env_mode;
     MODELS := load_models b |}.

(** ** The authorization gate *)

Definition call_verify_token (c : Collab) : M string :=
  emit EvVerifyToken ;; call (verify_token c).

(** Lines 57-68. *)
Definition conditional_auth (g : Globals) (c : Collab) : M string :=
  if String.eqb (ENV g) "dev" then
    ret "dev_user"
  else
    try_except (call_verify_token c)
      (fun _ => raise (HTTPException 401 "Authentication failed")).

(** The two states of the gate. *)
Inductive gate : Type := Bypass | Verify.

Definition gate_state (g : Globals) : gate :=
  if String.eqb (ENV g) "dev" then Bypass else Verify.

(** ** The routes *)

Record Response : Type := mkResponse {
  status : Z;
  content : value
}.

(** [JSONResponse(content=...)]: the body is rendered by [json.dumps] when
    the response object is built; the default status is 200. *)
Definition JSONResponse (body : value) : M Response :=
  if jsonable body then ret {| status := 200; content := body |}
  else raise (render_error body).

(** Line 107: the body of [GET /] for a given mode string. *)
Definition root_body (mode : string) : value :=
  VDict [("message", VStr ("Basic ML App is running in " ++ mode ++ " mode"))].

(** Lines 104-107: the returned dictionary is rendered by the framework
    as a JSON response. *)
Definition root (g : Globals) : M Response :=
  JSONResponse (root_body (ENV g)).

(** [int(x)] on a float: truncation toward zero. *)
Definition int_of_float (x : Q) : Z := Z.quot (Qnum x) (Zpos (Qden x)).

Definition call_model_predict (model_name : string) (model : IntentClassifier)
    (text : string) : M (string * list (string * pyfloat)) :=
  emit (EvModelPredict model_name text) ;; call (model_predict model text).

Definition probs_value (all_probs : list (string * pyfloat)) : value :=
  VDict (List.map (fun kp => match kp with (k, p) => (k, VFloat p) end) all_probs).

(** Lines 114-119: the loop over [MODELS.items()]. *)
Fixpoint fan_out (text : string) (items : list (string * IntentClassifier))
    (predictions : list (string * value)) : M (list (string * value)) :=
  match items with
  | [] => ret predictions
  | (model_name, model) :: rest =>
      r <- call_model_predict model_name model text ;;
      match r with
      | (top_intent, all_probs) =>
          fan_out text rest
            (Dict.set predictions model_name
               (VDict [("top_intent", VStr top_intent);
                       ("all_probs", probs_value all_probs)]))
      end
  end.

(** Reading a module-level name. *)
Definition load_global {A} (name : string) (b : binding A) : M A :=
  match b with
  | Bound a => ret a
  | Unbound => raise (NameError name)
  end.

(** [collection.insert_one(results)]: the driver works on the caller's
    dictionary, so an ["_id"] it stores is visible to the handler whether
    the call returns or raises. *)
Definition call_insert_one (c : Collab) : M unit :=
  fun st =>
    let document := results st in
    let ins := insert_one c document in
    let document' :=
      match stored_id ins with
      | Some hex =>
          if Dict.mem document "_id" then document
          else Dict.set document "_id" (VObjectId hex)
      | None => document
      end in
    let st' := {| results := document'; trace := trace st ++ [EvInsertOne document] |} in
    match insert_result ins with
    | Returns _ => (Ok tt, st')
    | Raises msg => (Raise (External msg), st')
    end.

(** Lines 121-126: the dictionary literal bound to [results]. *)
Definition assemble (text owner : string) (predictions : list (string * value))
    (timestamp : Z) : list (string * value) :=
  [("text", VStr text);
   ("owner", VStr owner);
   ("predictions", VDict predictions);
   ("timestamp", VInt timestamp)].

Definition db_error_text : string := "Failed to log prediction to database.".

(** Lines 111-140. *)
Definition predict (g : Globals) (c : Collab) (text owner : string) : M Response :=
  predictions <- fan_out text (MODELS g) [] ;;
  results_assign (assemble text owner predictions (int_of_float (now c))) ;;
  coll <- load_global "collection" (collection g) ;;
  match coll with
  | Some _ =>
      try_except
        (call_insert_one c ;;
         oid <- results_getitem "_id" ;;
         results_setitem "id" (VStr (py_str oid)) ;;
         results_pop "_id")
        (fun _ => results_setitem "db_error" (VStr db_error_text))
  | None => ret tt
  end ;;
  body <- results_load ;;
  JSONResponse (VDict body).

(** [POST /predict] with the query parameter [text]:
    [Depends(conditional_auth)] is resolved first and its value is passed
    as [owner]. *)
Definition post_predict (g : Globals) (c : Collab) (text : string) : M Response :=
  owner <- conditional_auth g c ;;
  predict g c text owner.

(** The framework's translation of a handler's result: an [HTTPException]
    becomes a response with its status and [{"detail": ...}]; any other
    exception becomes a 500. *)
Definition respond (r : result Response) : Response :=
  match r with
  | Ok resp => resp
  | Raise (HTTPException code detail) =>
      {| status := code; content := VDict [("detail", VStr detail)] |}
  | Raise _ => {| status := 500; content := VStr "Internal Server Error" |}
  end.

Definition serve (m : M Response) : Response * list event :=
  match m initial with
  | (r, st) => (respond r, trace st)
  end.

(** A [POST /predict] that carries the query parameter [text]. *)
Definition http_post_predict (g : Globals) (c : Collab) (text : string) : Response * list event :=
  serve (post_predict g c text).

Definition http_get_root (g : Globals) : Response * list event :=
  serve (root g).

(** Classification of the recorded calls. *)
Definition is_verification (ev : event) : bool :=
  match ev with EvVerifyToken => true | _ => false end.

Definition is_prediction (ev : event) : bool :=
  match ev with EvModelPredict _ _ => true | _ => false end.

Definition is_persistence (ev : event) : bool :=
  match ev with EvInsertOne _ => true | _ => false end.

(** ** Processes: start-up followed by requests and environment changes *)

Inductive action : Type :=
| SetEnv (key val : string)
| UnsetEnv (key : string)
| GetRoot
| PostPredict (text : string) (c : Collab).

Record Process : Type := mkProcess {
  os_environ : gmap string string;
  globals : Globals
}.

Definition boot_process (b : Boot) : Process :=
  {| os_environ := environ b; globals := startup b |}.

(** One step of a run; a request yields its response. *)
Definition step (p : Process) (a : action) : Process * option Response :=
  match a with
  | SetEnv key val =>
      ({| os_environ := <[key := val]> (os_environ p); globals := globals p |}, None)
  | UnsetEnv key =>
      ({| os_environ := delete key (os_environ p); globals := globals p |}, None)
  | GetRoot => (p, Some (fst (http_get_root (globals p))))
  | PostPredict text c => (p, Some (fst (http_post_predict (globals p) c text)))
  end.

Fixpoint run (p : Process) (acts : list action) : Process * list (option Response) :=
  match acts with
  | [] => (p, [])
  | a :: rest =>
      match step p a with
      | (p', out) =>
          match run p' rest with
          | (p'', outs) => (p'', out :: outs)
          end
      end
  end.

(** ** Sample configurations *)

Module Samples.

(** The predictor of the test fixture. *)
Definition greeter : IntentClassifier :=
  {| model_predict :=
       fun _ => Returns ("saudacao", [("saudacao", Finite (95 # 100)); ("outro", Finite (5 # 100))]) |}.

(** A predictor whose [predict] raises. *)
Definition faulty : IntentClassifier :=
  {| model_predict := fun _ => Raises "inference failed" |}.

Definition db_up : string -> outcome (option string) :=
  fun name => Returns (Some name).

Definition db_down : string -> outcome (option string) :=
  fun _ => Raises "ServerSelectionTimeoutError".

Definition boot_with (env : gmap string string)
    (db : string -> outcome (option string)) (files : list string)
    (model : IntentClassifier) : Boot :=
  {| environ := env;
     get_mongo_collection := db;
     listdir := Returns files;
     load_classifier := fun _ => Returns model |}.

Definition env_unset : gmap string string := ∅.
Definition env_dev : gmap string string := {[ "ENV" := "dev" ]}.
Definition env_development : gmap string string := {[ "ENV" := "development" ]}.

(** The driver stores the identifier and the insert returns. *)
Definition insert_ok : Insert :=
  {| stored_id := Some "65f0c0ffee0123456789abcd"; insert_result := Returns tt |}.

(** The driver stores the identifier, then the write fails. *)
Definition insert_lost : Insert :=
  {| stored_id := Some "65f0c0ffee0123456789abcd";
     insert_result := Raises "ServerSelectionTimeoutError" |}.

(** A stand-in collection that raises without touching the document. *)
Definition insert_refused : Insert :=
  {| stored_id := None; insert_result := Raises "DB connection error" |}.

(** The stand-in collection of the tests: the call returns and stores
    nothing. *)
Definition insert_mocked : Insert :=
  {| stored_id := None; insert_result := Returns tt |}.

Definition collab_with (token : outcome string) (ins : Insert) (clock : Q) : Collab :=
  {| verify_token := token; insert_one := fun _ => ins; now := clock |}.

Definition token_valid : outcome string := Returns "prod_user_123".
Definition token_missing : outcome string := Raises "Token missing".

(** Globals of a process started with [ENV] unset, the database reachable
    and the fixture model in the models directory. *)
Definition prod_globals : Globals :=
  startup (boot_with env_unset db_up ["dummy_model.keras"] greeter).

(** The same with [ENV=dev]. *)
Definition dev_globals : Globals :=
  startup (boot_with env_dev db_up ["dummy_model.keras"] greeter).

(** [ENV] unset, the database reachable, a model whose [predict] raises. *)
Definition prod_globals_faulty : Globals :=
  startup (boot_with env_unset db_up ["dummy_model.keras"] faulty).

(** [ENV=dev], the database unreachable at start-up, no model files. *)
Definition dev_boot_no_db_no_models : Boot :=
  boot_with env_dev db_down [] greeter.

(** [ENV=dev], the database unreachable at start-up, the fixture model. *)
Definition dev_boot_no_db : Boot :=
  boot_with env_dev db_down ["dummy_model.keras"] greeter.

(** [ENV=dev], the database unreachable at start-up, a model that raises. *)
Definition dev_boot_no_db_faulty : Boot :=
  boot_with env_dev db_down ["dummy_model.keras"] faulty.

(** [ENV=development]. *)
Definition development_boot : Boot :=
  boot_with env_development db_up ["dummy_model.keras"] greeter.

(** A request with a valid token while the database accepts the insert. *)
Definition request_ok : Collab := collab_with token_valid insert_ok (1700000000 # 1).

(** A request during which the write fails after the driver has stored
    the identifier. *)
Definition request_db_lost : Collab := collab_with token_valid insert_lost (1700000000 # 1).

(** A run: a prediction, a change of the environment, a health check and
    a second prediction a little later. *)
Definition two_predictions : list action :=
  [PostPredict "ola" (collab_with token_valid insert_ok (17000000009 # 10));
   SetEnv "ENV" "prod";
   GetRoot;
   PostPredict "oi" (collab_with token_valid insert_refused (17000000012 # 10))].

End Samples.

(** ** Vocabulary of the statements *)

(** The eight spellings that lower-case to ["dev"]. *)
Definition dev_spellings : list string :=
  ["dev"; "deV"; "dEv"; "dEV"; "Dev"; "DeV"; "DEv"; "DEV"].

Definition returns_on (text : string) (item : string * IntentClassifier) : Prop :=
  exists r, model_predict (snd item) text = Returns r.

Definition raises_on (text : string) (item : string * IntentClassifier) : Prop :=
  exists msg, model_predict (snd item) text = Raises msg.

Definition predict_event (text : string) (item : string * IntentClassifier) : event :=
  EvModelPredict (fst item) text.

(** Every probability of the mapping is a finite number. *)
Definition finite_probs (all_probs : list (string * pyfloat)) : bool :=
  forallb (fun kp => is_finite (snd kp)) all_probs.

(** The model returns on the text, with finite probabilities. *)
Definition renders_on (text : string) (item : string * IntentClassifier) : Prop :=
  exists top_intent all_probs,
    model_predict (snd item) text = Returns (top_intent, all_probs)
    /\ finite_probs all_probs = true.

(** The [timestamp] field of a response with status 200, when it is an
    integer. *)
Definition response_timestamp (resp : Response) : option Z :=
  if Z.eqb (status resp) 200 then
    match content resp with
    | VDict body =>
        match Dict.get body "timestamp" with
        | Some (VInt t) => Some t
        | _ => None
        end
    | _ => None
    end
  else None.

(** The clock reading seen by a [POST /predict] request. *)
Definition request_clock (a : action) : option Q :=
  match a with
  | PostPredict _ c => Some (now c)
  | _ => None
  end.

(** The timestamps returned during a run, in the order of the requests. *)
Definition timestamps (outs : list (option Response)) : list Z :=
  omap (fun out => match out with Some resp => response_timestamp resp | None => None end) outs.

(** The request passes the gate: the dependency returns an identity. *)
Definition passes_authorization (g : Globals) (c : Collab) (owner : string) : Prop :=
  exists st, conditional_auth g c initial = (Ok owner, st).

(** ** Vocabulary of the further properties *)

(** Whether a character occurs in a string. *)
Fixpoint has_char (c : ascii) (s : string) : bool :=
  match s with
  | EmptyString => false
  | String c' s' => Ascii.eqb c' c || has_char c s'
  end.

(** Whether every character is in the ASCII range, where the case
    mappings above agree with [str.lower] and [str.upper]. *)
Fixpoint ascii_only (s : string) : bool :=
  match s with
  | EmptyString => true
  | String c s' => (N_of_ascii c <? 128)%N && ascii_only s'
  end.

(** Line 83: the registry key derived from a file name. *)
Definition model_name_of (model_file : string) : string :=
  Str.replace ".keras" "" model_file.

(** Line 76: the files the loop of line 81 visits. *)
Definition model_files_of (files : list string) : list string :=
  List.filter (Str.endswith ".keras") files.

(** The constructor of line 89 returns for this file. *)
Definition loads (b : Boot) (model_file : string) : Prop :=
  exists m, load_classifier b model_file = Returns m.

(** Lines 116-119: the entry stored for one model. *)
Definition prediction_entry (top_intent : string) (all_probs : list (string * pyfloat)) : value :=
  VDict [("top_intent", VStr top_intent); ("all_probs", probs_value all_probs)].

(** The keys of the dictionary literal of lines 121-126. *)
Definition record_keys : list string := ["text"; "owner"; "predictions"; "timestamp"].


(** The fixed answers of the framework. *)
Definition response_401 : Response :=
  {| status := 401; content := VDict [("detail", VStr "Authentication failed")] |}.

Definition response_500 : Response :=
  {| status := 500; content := VStr "Internal Server Error" |}.

(** [POST /predict] as the framework serves it, with or without the
    required query parameter [text] of line 111: the dependency is resolved
    first; a request without [text] is then refused with a 422 and the
    handler does not run.  The status and the calls are given. *)
Definition route_post_predict (g : Globals) (c : Collab) (query_text : option string)
    : Z * list event :=
  match query_text with
  | Some text =>
      (status (fst (http_post_predict g c text)), snd (http_post_predict g c text))
  | None =>
      match conditional_auth g c initial with
      | (Ok _, st) => (422, trace st)
      | (Raise e, st) => (status (respond (Raise e)), trace st)
      end
  end.

(** The calls made for a list of registry items, in order. *)
Definition predict_events (text : string) (items : list (string * IntentClassifier)) : list event :=
  List.map (predict_event text) items.

(** ** Sample directories and start-ups for the further properties *)

Module Directory.

(** A models directory holding three model files and a text file. *)
Definition listing : list string := ["a.keras"; "notes.txt"; "b.keras"; "c.keras"].

(** A constructor that raises on "b.keras". *)
Definition loader_without_b (model_file : string) : outcome IntentClassifier :=
  if String.eqb model_file "b.keras" then Raises "corrupt file"
  else Returns Samples.greeter.

Definition boot_b_corrupt : Boot :=
  {| environ := Samples.env_unset;
     get_mongo_collection := Samples.db_up;
     listdir := Returns listing;
     load_classifier := loader_without_b |}.

Definition boot_all_load : Boot :=
  Samples.boot_with Samples.env_unset Samples.db_up listing Samples.greeter.

(** Two files that derive the name "a", with different classifiers. *)
Definition loader_by_file (model_file : string) : outcome IntentClassifier :=
  if String.eqb model_file "a.keras" then Returns Samples.greeter
  else Returns Samples.faulty.

Definition boot_same_name : Boot :=
  {| environ := Samples.env_unset;
     get_mongo_collection := Samples.db_up;
     listdir := Returns ["a.keras"; "a.keras.keras"];
     load_classifier := loader_by_file |}.

(** [ENV=Dev]. *)
Definition boot_mixed_case : Boot :=
  Samples.boot_with {[ "ENV" := "Dev" ]} Samples.db_up ["dummy_model.keras"] Samples.greeter.


(** A request served while the clock reads one and a half seconds before
    the epoch. *)
Definition request_before_epoch : Collab :=
  Samples.collab_with Samples.token_valid Samples.insert_ok (-3 # 2).


End Directory.

(** * Properties *)

(** ** Dictionaries *)

Module DictFacts.

Section Facts.
Context {V : Type}.
Implicit Types (d : list (string * V)) (k : string) (v : V).

Lemma get_None_keys d k : Dict.get d k = None <-> ~ In k (Dict.keys d).
    Proof.
      induction d as [|[k' v'] d IH]; simpl.
      - tauto.
      - destruct (String.eqb_spec k' k) as [->|Hne].
        + split; [discriminate | intros H; exfalso; apply H; now left].
        + rewrite IH. tauto.
    Qed.

Lemma get_set_eq d k v : Dict.get (Dict.set d k v) k = Some v.
    Proof.
      induction d as [|[k' v'] d IH]; simpl.
      - now rewrite String.eqb_refl.
      - destruct (String.eqb_spec k' k) as [->|Hne]; simpl.
        + now rewrite String.eqb_refl.
        + destruct (String.eqb_spec k' k); [contradiction | exact IH].
    Qed.

Lemma get_set_ne d k k' v : k <> k' -> Dict.get (Dict.set d k v) k' = Dict.get d k'.
    Proof.
      intros Hne. induction d as [|[k0 v0] d IH]; simpl.
      - destruct (String.eqb_spec k k'); [contradiction | reflexivity].
      - destruct (String.eqb_spec k0 k) as [->|Hk]; simpl.
        + destruct (String.eqb_spec k k'); [contradiction | reflexivity].
        + destruct (String.eqb_spec k0 k'); [reflexivity | exact IH].
    Qed.

Lemma get_pop_eq d k : NoDup (Dict.keys d) -> Dict.get (Dict.pop d k) k = None.
    Proof.
      induction d as [|[k0 v0] d IH]; simpl; intros Hnd.
      - reflexivity.
      - apply NoDup_cons in Hnd as [Hnotin Hnd].
        destruct (String.eqb_spec k0 k) as [->|Hk]; simpl.
        + apply get_None_keys. now rewrite <- list_elem_of_In.
        + destruct (String.eqb_spec k0 k); [contradiction | now apply IH].
    Qed.

Lemma get_pop_ne d k k' : k <> k' -> Dict.get (Dict.pop d k) k' = Dict.get d k'.
    Proof.
      intros Hne. induction d as [|[k0 v0] d IH]; simpl.
      - reflexivity.
      - destruct (String.eqb_spec k0 k) as [->|Hk]; simpl.
        + destruct (String.eqb_spec k k'); [contradiction | reflexivity].
        + destruct (String.eqb_spec k0 k'); [reflexivity | exact IH].
    Qed.

Lemma keys_set_fresh d k v :
      Dict.get d k = None -> Dict.keys (Dict.set d k v) = (Dict.keys d ++ [k])%list.
    Proof.
      induction d as [|[k0 v0] d IH]; simpl; intros Hget.
      - reflexivity.
      - destruct (String.eqb_spec k0 k); [discriminate |].
        simpl. f_equal. now apply IH.
    Qed.

Lemma keys_set_present d k v :
      Dict.get d k <> None -> Dict.keys (Dict.set d k v) = Dict.keys d.
    Proof.
      induction d as [|[k0 v0] d IH]; simpl; intros Hget.
      - contradiction.
      - destruct (String.eqb_spec k0 k) as [->|Hk]; simpl; [reflexivity |].
        f_equal. now apply IH.
    Qed.

Lemma NoDup_keys_set d k v : NoDup (Dict.keys d) -> NoDup (Dict.keys (Dict.set d k v)).
    Proof.
      intros Hnd. destruct (Dict.get d k) eqn:Hget.
      - rewrite keys_set_present; [exact Hnd | congruence].
      - rewrite keys_set_fresh by exact Hget.
        apply NoDup_app. split; [exact Hnd |]. split.
        + intros x Hx Hk. apply list_elem_of_singleton in Hk as ->.
          apply get_None_keys in Hget. apply Hget. now apply list_elem_of_In.
        + apply NoDup_singleton.
    Qed.

End Facts.

End DictFacts.

(** ** Case mapping and the sentinel *)

Module StrFacts.

Ltac ascii_cases c :=
    destruct c as [[] [] [] [] [] [] [] []].

Lemma lower_char_d c : Str.lower_char c = "d"%char <-> c = "d"%char \/ c = "D"%char.
  Proof.
    split.
    - ascii_cases c; vm_compute; intros H; try discriminate H; auto.
    - intros [-> | ->]; reflexivity.
  Qed.

Lemma lower_char_e c : Str.lower_char c = "e"%char <-> c = "e"%char \/ c = "E"%char.
  Proof.
    split.
    - ascii_cases c; vm_compute; intros H; try discriminate H; auto.
    - intros [-> | ->]; reflexivity.
  Qed.

Lemma lower_char_v c : Str.lower_char c = "v"%char <-> c = "v"%char \/ c = "V"%char.
  Proof.
    split.
    - ascii_cases c; vm_compute; intros H; try discriminate H; auto.
    - intros [-> | ->]; reflexivity.
  Qed.

Lemma lower_dev v : Str.lower v = "dev" <-> In v dev_spellings.
  Proof.
    split.
    - destruct v as [|c1 [|c2 [|c3 [|c4 v]]]]; simpl; intros H; try discriminate H.
      injection H as H1 H2 H3.
      apply lower_char_d in H1. apply lower_char_e in H2. apply lower_char_v in H3.
      destruct H1 as [-> | ->], H2 as [-> | ->], H3 as [-> | ->]; simpl; tauto.
    - unfold dev_spellings. simpl.
      intros H. repeat (destruct H as [<- | H]; [reflexivity |]). contradiction.
  Qed.

Lemma caseless_dev v : Str.caseless_eq v "dev" = true <-> In v dev_spellings.
  Proof.
    unfold Str.caseless_eq. rewrite <- lower_dev.
    change (Str.lower "dev") with "dev". apply String.eqb_eq.
  Qed.

End StrFacts.

(** ** The gate *)

Lemma gate_state_Bypass g : gate_state g = Bypass <-> ENV g = "dev".
Proof.
  unfold gate_state. destruct (String.eqb_spec (ENV g) "dev"); split; congruence.
Qed.

Lemma gate_state_Verify g : gate_state g = Verify <-> ENV g <> "dev".
Proof.
  unfold gate_state. destruct (String.eqb_spec (ENV g) "dev"); split; congruence.
Qed.

(** In the bypass state the gate returns at once and leaves the state
    untouched. *)
Lemma conditional_auth_bypass g c st :
  gate_state g = Bypass -> conditional_auth g c st = (Ok "dev_user", st).
Proof.
  intros H. apply gate_state_Bypass in H.
  unfold conditional_auth. now rewrite H.
Qed.

(** In the verify state the verifier is called exactly once; its identity
    is passed on, its failure becomes the fixed 401. *)
Lemma conditional_auth_verify g c st :
  gate_state g = Verify ->
  conditional_auth g c st =
    (match verify_token c with
     | Returns u => Ok u
     | Raises _ => Raise (HTTPException 401 "Authentication failed")
     end,
     {| results := results st; trace := trace st ++ [EvVerifyToken] |}).
Proof.
  intros H. apply gate_state_Verify in H.
  unfold conditional_auth. destruct (String.eqb_spec (ENV g) "dev"); [contradiction |].
  unfold try_except, call_verify_token, bind, emit, call, ret, raise.
  destruct (verify_token c); reflexivity.
Qed.

(** C2 (as amended): the gate is in the bypass state exactly when the
    environment value of [ENV] is set and equals, up to case, the sentinel
    ["dev"] (one of its eight spellings); for every other value, and when
    the variable is unset, the gate is in the verify state. *)
Theorem gate_state_by_mode (b : Boot) :
  gate_state (startup b) =
    match environ b !! "ENV" with
    | Some v => if Str.caseless_eq v "dev" then Bypass else Verify
    | None => Verify
    end
  /\ (gate_state (startup b) = Bypass <->
      exists v, environ b !! "ENV" = Some v /\ In v dev_spellings).
Proof.
  assert (Heq : gate_state (startup b) =
    match environ b !! "ENV" with
    | Some v => if Str.caseless_eq v "dev" then Bypass else Verify
    | None => Verify
    end).
  { unfold gate_state, startup, read_ENV, getenv, Str.caseless_eq. simpl ENV.
    destruct (environ b !! "ENV") as [v|]; reflexivity. }
  split; [exact Heq |].
  rewrite Heq. destruct (environ b !! "ENV") as [v|].
  - destruct (Str.caseless_eq v "dev") eqn:E.
    + split; [intros _ | reflexivity].
      exists v. split; [reflexivity | now apply StrFacts.caseless_dev].
    + split; [discriminate |].
      intros (v' & Hv' & Hin). injection Hv' as <-.
      apply StrFacts.caseless_dev in Hin. congruence.
  - split; [discriminate | intros (v & Hv & _); discriminate].
Qed.

(** ** The fan-out over the registry *)

Lemma jsonable_probs all_probs : jsonable (probs_value all_probs) = finite_probs all_probs.
Proof.
  unfold probs_value, finite_probs. simpl.
  induction all_probs as [|[k p] l IH]; simpl; [reflexivity | now rewrite IH].
Qed.

Lemma jsonable_entry top_intent all_probs :
  jsonable (VDict [("top_intent", VStr top_intent); ("all_probs", probs_value all_probs)]) =
    finite_probs all_probs.
Proof.
  pose proof (jsonable_probs all_probs) as H. simpl in *. rewrite H.
  now rewrite andb_true_r.
Qed.




Lemma jsonable_set d k v :
  jsonable (VDict d) = true -> jsonable v = true -> jsonable (VDict (Dict.set d k v)) = true.
Proof.
  simpl. induction d as [|[k' v'] d IH]; simpl; intros Hd Hv.
  - now rewrite Hv.
  - apply andb_prop in Hd as [Hv' Hd]. destruct (String.eqb k' k); simpl.
    + now rewrite Hv, Hd.
    + rewrite Hv'. now apply IH.
Qed.

(** Whatever the models do, the fan-out leaves [results] alone, records
    only [predict] calls, and can fail only with a model's own exception.
    When it returns, each model was called once, in registry order, and
    the mapping gained one key per model. *)
Lemma fan_out_inv text items :
  forall predictions st r st',
    fan_out text items predictions st = (r, st') ->
    results st' = results st
    /\ (exists evs, trace st' = (trace st ++ evs)%list /\ forallb is_prediction evs = true)
    /\ (forall e, r = Raise e ->
        exists item msg, In item items /\ model_predict (snd item) text = Raises msg
                         /\ e = External msg)
    /\ (forall predictions', r = Ok predictions' ->
        trace st' = (trace st ++ List.map (predict_event text) items)%list
        /\ (Forall (renders_on text) items ->
            jsonable (VDict predictions) = true -> jsonable (VDict predictions') = true)
        /\ (NoDup (Dict.keys items) ->
            (forall k, In k (Dict.keys items) -> ~ In k (Dict.keys predictions)) ->
            Dict.keys predictions' = (Dict.keys predictions ++ Dict.keys items)%list)).
Proof.
  induction items as [|[name model] rest IH]; intros predictions st r st' H; simpl in H.
  - injection H as <- <-. split; [reflexivity |]. split; [| split].
    + exists []. now rewrite app_nil_r.
    + discriminate.
    + intros p' Hp. injection Hp as <-. simpl. rewrite !app_nil_r. auto.
  - unfold bind, call_model_predict, emit, call in H. simpl in H.
    destruct (model_predict model text) as [[top_intent all_probs]|msg] eqn:Hm; simpl in H.
    + set (entry := VDict [("top_intent", VStr top_intent);
                           ("all_probs", probs_value all_probs)]) in H.
      apply IH in H as (Hres & (evs & Htr & Hevs) & Hraise & Hok). simpl in Hres, Htr.
      split; [exact Hres |]. split; [| split].
      * exists (EvModelPredict name text :: evs). split.
        -- rewrite Htr. now rewrite <- app_assoc.
        -- exact Hevs.
      * intros e He. destruct (Hraise e He) as (item & msg & Hin & Hitem & ->).
        exists item, msg. split; [now right | now split].
      * intros p' Hp. destruct (Hok p' Hp) as (Htr' & Hjson & Hkeys). simpl in Htr'.
        split; [| split].
        -- rewrite Htr'. now rewrite <- app_assoc.
        -- intros Hall Hj. apply Forall_cons in Hall as [(t' & probs' & Hm' & Hfin) Hall].
           simpl in Hm'. rewrite Hm in Hm'. injection Hm' as <- <-.
           apply Hjson; [exact Hall |]. apply jsonable_set; [exact Hj |].
           subst entry. now rewrite jsonable_entry.
        -- intros Hnd Hfresh. apply NoDup_cons in Hnd as [Hname Hnd].
           assert (Hget : Dict.get predictions name = None).
           { apply DictFacts.get_None_keys. apply Hfresh. now left. }
           rewrite Hkeys.
           ++ rewrite DictFacts.keys_set_fresh by exact Hget.
              now rewrite <- app_assoc.
           ++ exact Hnd.
           ++ intros k Hk. rewrite DictFacts.keys_set_fresh by exact Hget.
              intros Hin. apply in_app_or in Hin as [Hin | [<- | []]].
              ** apply (Hfresh k); [now right | exact Hin].
              ** apply Hname. now apply list_elem_of_In.
    + injection H as <- <-. simpl. split; [reflexivity |]. split; [| split].
      * exists [EvModelPredict name text]. now split.
      * intros e He. injection He as <-.
        exists (name, model), msg. split; [now left | now split].
      * discriminate.
Qed.

(** When every model returns, the fan-out returns. *)
Lemma fan_out_returns text items :
  Forall (returns_on text) items ->
  forall predictions st,
    exists predictions' st', fan_out text items predictions st = (Ok predictions', st').
Proof.
  induction 1 as [|[name model] rest [[top_intent all_probs] Hret] _ IH];
    intros predictions st; simpl.
  - eauto.
  - simpl in Hret. unfold bind, call_model_predict, emit, call. simpl. rewrite Hret. simpl.
    apply IH.
Qed.

(** When some model raises, so does the fan-out. *)
Lemma fan_out_raises text items :
  Exists (raises_on text) items ->
  forall predictions st,
    exists msg st', fan_out text items predictions st = (Raise (External msg), st').
Proof.
  induction items as [|[name model] rest IH]; intros Hex predictions st.
  - inversion Hex.
  - simpl. unfold bind, call_model_predict, emit, call. simpl.
    destruct (model_predict model text) as [[top_intent all_probs]|msg] eqn:Hm; simpl.
    + apply IH. apply Exists_cons in Hex as [[msg Hmsg] | Hex]; [| exact Hex].
      simpl in Hmsg. congruence.
    + eauto.
Qed.

(** ** The handler after the fan-out *)

(** Everything [predict] does once the fan-out has returned: the unbound
    [collection] name, the skipped persistence, and the four ways the
    insert can end. *)
Lemma predict_after_fan_out g c text owner st predictions st1 :
  fan_out text (MODELS g) [] st = (Ok predictions, st1) ->
  jsonable (VDict predictions) = true ->
  let record := assemble text owner predictions (int_of_float (now c)) in
  let logged := (trace st1 ++ [EvInsertOne record])%list in
  predict g c text owner st =
    match collection g with
    | Unbound =>
        (Raise (NameError "collection"), {| results := record; trace := trace st1 |})
    | Bound None =>
        (Ok {| status := 200; content := VDict record |},
         {| results := record; trace := trace st1 |})
    | Bound (Some _) =>
        match stored_id (insert_one c record), insert_result (insert_one c record) with
        | Some hex, Returns _ =>
            let final := (record ++ [("id", VStr hex)])%list in
            (Ok {| status := 200; content := VDict final |},
             {| results := final; trace := logged |})
        | None, _ =>
            let final := (record ++ [("db_error", VStr db_error_text)])%list in
            (Ok {| status := 200; content := VDict final |},
             {| results := final; trace := logged |})
        | Some hex, Raises _ =>
            (Raise (TypeError "Object of type ObjectId is not JSON serializable"),
             {| results := (record ++ [("_id", VObjectId hex);
                                       ("db_error", VStr db_error_text)])%list;
                trace := logged |})
        end
    end.
Proof.
  intros Hfan Hjson record logged. subst record logged.
  unfold predict, bind. rewrite Hfan.
  unfold results_assign, load_global.
  simpl in Hjson.
  destruct (collection g) as [|[coll|]].
  - reflexivity.
  - unfold try_except, bind, call_insert_one.
    cbn -[assemble jsonable Dict.get Dict.set Dict.pop Dict.mem].
    destruct (insert_one c (assemble text owner predictions (int_of_float (now c))))
      as [[hex|] [[]|msg]];
      unfold assemble, JSONResponse; cbn; rewrite ?Hjson; reflexivity.
  - unfold assemble, JSONResponse; cbn; rewrite ?Hjson; reflexivity.
Qed.

(** The exception of a refused rendering is a [TypeError] or a
    [ValueError]. *)
Lemma render_error_kind (v : value) :
  (exists msg, render_error v = TypeError msg) \/ (exists msg, render_error v = ValueError msg).
Proof.
  revert v. fix IH 1. intros [s|z|f|hex|d]; simpl; eauto.
  induction d as [|[k x] d IHd]; eauto.
  destruct (jsonable x); [exact IHd | apply IH].
Qed.

(** The same course when the predictions mapping cannot be rendered
    because a model returned a probability that is not finite: the
    handler raises, at the [collection] guard when the name is unbound,
    and otherwise when the response is built, after the insert if one is
    made. *)
Lemma predict_unrendered g c text owner st predictions st1 :
  fan_out text (MODELS g) [] st = (Ok predictions, st1) ->
  jsonable (VDict predictions) = false ->
  exists e st',
    predict g c text owner st = (Raise e, st')
    /\ ((e = NameError "collection" /\ collection g = Unbound)
        \/ (((exists msg, e = TypeError msg) \/ (exists msg, e = ValueError msg))
            /\ collection g <> Unbound))
    /\ trace st' =
         match collection g with
         | Bound (Some _) =>
             (trace st1
              ++ [EvInsertOne (assemble text owner predictions (int_of_float (now c)))])%list
         | _ => trace st1
         end.
Proof.
  intros Hfan Hjson.
  unfold predict, bind. rewrite Hfan.
  unfold results_assign, load_global.
  simpl in Hjson.
  destruct (collection g) as [|[coll|]].
  - eexists _, _. split; [reflexivity |]. split; [left; now split | reflexivity].
  - unfold try_except, bind, call_insert_one.
    cbn -[assemble jsonable render_error Dict.get Dict.set Dict.pop Dict.mem].
    destruct (insert_one c (assemble text owner predictions (int_of_float (now c))))
      as [[hex|] [[]|msg]];
      unfold assemble, JSONResponse;
      cbn -[render_error]; rewrite Hjson; cbn -[render_error];
      (eexists _, _; split; [reflexivity |];
       split; [right; split; [apply render_error_kind | discriminate] | reflexivity]).
  - unfold assemble, JSONResponse. cbn -[render_error]. rewrite Hjson. cbn -[render_error].
    eexists _, _. split; [reflexivity |].
    split; [right; split; [apply render_error_kind | discriminate] | reflexivity].
Qed.

(** With [collection] unbound the guard raises as soon as the fan-out has
    returned, whatever the models returned. *)
Lemma predict_unbound g c text owner st predictions st1 :
  fan_out text (MODELS g) [] st = (Ok predictions, st1) ->
  collection g = Unbound ->
  predict g c text owner st =
    (Raise (NameError "collection"),
     {| results := assemble text owner predictions (int_of_float (now c));
        trace := trace st1 |}).
Proof.
  intros Hfan Hcoll. unfold predict, bind. rewrite Hfan.
  unfold results_assign, load_global. now rewrite Hcoll.
Qed.

(** Every model either returns or raises on a given text. *)
Lemma returns_or_raises text (items : list (string * IntentClassifier)) :
  Forall (returns_on text) items \/ Exists (raises_on text) items.
Proof.
  induction items as [|[name model] rest [IH | IH]].
  - left. constructor.
  - destruct (model_predict model text) as [r|msg] eqn:Hm.
    + left. constructor; [now exists r | exact IH].
    + right. apply Exists_cons_hd. now exists msg.
  - right. now apply Exists_cons_tl.
Qed.

(** ** The registry built at start-up *)

Lemma NoDup_load_loop b model_files :
  forall models, NoDup (Dict.keys models) -> NoDup (Dict.keys (load_loop b model_files models)).
Proof.
  induction model_files as [|f rest IH]; intros models Hnd; simpl.
  - exact Hnd.
  - destruct (load_classifier b f); [| exact Hnd].
    apply IH. now apply DictFacts.NoDup_keys_set.
Qed.

Lemma NoDup_MODELS b : NoDup (Dict.keys (MODELS (startup b))).
Proof.
  simpl. unfold load_models. destruct (listdir b).
  - apply NoDup_load_loop. constructor.
  - constructor.
Qed.

(** ** Requests that pass the gate *)

Lemma authorization_cases g c owner st :
  conditional_auth g c initial = (Ok owner, st) ->
  (gate_state g = Bypass /\ owner = "dev_user" /\ st = initial)
  \/ (gate_state g = Verify /\ verify_token c = Returns owner
      /\ st = {| results := []; trace := [EvVerifyToken] |}).
Proof.
  intros H. destruct (gate_state g) eqn:Hg.
  - rewrite conditional_auth_bypass in H by exact Hg.
    injection H as <- <-. now left.
  - rewrite conditional_auth_verify in H by exact Hg.
    destruct (verify_token c) as [u|msg]; [| discriminate].
    injection H as <- <-. now right.
Qed.

Lemma post_predict_authorized g c text owner st :
  conditional_auth g c initial = (Ok owner, st) ->
  post_predict g c text initial = predict g c text owner st.
Proof.
  intros H. unfold post_predict, bind. now rewrite H.
Qed.

(** What [predict] can do, whatever the collaborators do: it records no
    verifier call; a response it returns has status 200 and carries the
    assembled record, with one prediction per registered model; an
    exception it raises is the unbound name, the rendering error or a
    model's own exception, never an [HTTPException]. *)
Lemma predict_inv g c text owner st r st' :
  predict g c text owner st = (r, st') ->
  (exists evs, trace st' = (trace st ++ evs)%list
               /\ Forall (fun ev => is_verification ev = false) evs)
  /\ match r with
     | Ok resp =>
         status resp = 200
         /\ exists predictions extra,
              content resp =
                VDict (assemble text owner predictions (int_of_float (now c)) ++ extra)%list
              /\ (NoDup (Dict.keys (MODELS g)) ->
                  Dict.keys predictions = Dict.keys (MODELS g))
     | Raise e =>
         e = NameError "collection"
         \/ (exists msg, e = TypeError msg)
         \/ (exists msg, e = ValueError msg)
         \/ exists item msg, In item (MODELS g)
                             /\ model_predict (snd item) text = Raises msg
                             /\ e = External msg
     end.
Proof.
  intros H.
  destruct (fan_out text (MODELS g) [] st) as [[predictions | e] st1] eqn:Hfan.
  - destruct (fan_out_inv _ _ _ _ _ _ Hfan) as (_ & (evs & Htr & Hevs) & _ & Hok).
    destruct (Hok predictions eq_refl) as (_ & _ & Hkeys).
    assert (Hpred : Forall (fun ev => is_verification ev = false) evs).
    { apply Forall_forall. intros ev Hin.
      rewrite forallb_forall in Hevs. apply list_elem_of_In in Hin.
      specialize (Hevs ev Hin). now destruct ev. }
    destruct (jsonable (VDict predictions)) eqn:Hjson; cycle 1.
    { destruct (predict_unrendered g c text owner st predictions st1 Hfan Hjson)
        as (e & st2 & Hrun & Hkind & Htr2).
      rewrite Hrun in H. injection H as <- <-. split.
      - rewrite Htr2. destruct (collection g) as [|[coll|]].
        + exists evs. now split.
        + exists (evs ++ [EvInsertOne (assemble text owner predictions (int_of_float (now c)))])%list.
          split; [rewrite Htr; now rewrite <- app_assoc |].
          apply Forall_app. split; [exact Hpred | now repeat constructor].
        + exists evs. now split.
      - destruct Hkind as [[-> _] | [[Hk | Hk] _]]; auto. }
    rewrite (predict_after_fan_out g c text owner st predictions st1 Hfan Hjson) in H.
    cbv zeta in H.
    assert (Hk : NoDup (Dict.keys (MODELS g)) -> Dict.keys predictions = Dict.keys (MODELS g)).
    { intros Hnd. apply Hkeys; [exact Hnd | intros k _ []]. }
    destruct (collection g) as [|[coll|]].
    + injection H as <- <-. simpl. split; [| now left].
      exists evs. now split.
    + destruct (insert_one c (assemble text owner predictions (int_of_float (now c))))
        as [[hex|] [[]|msg]]; cbn [stored_id insert_result] in H;
        injection H as <- <-; simpl; (split;
          [ exists (evs ++ [EvInsertOne (assemble text owner predictions (int_of_float (now c)))])%list;
            split; [ rewrite Htr; now rewrite <- app_assoc
                   | apply Forall_app; split; [exact Hpred | now repeat constructor] ]
          | ]).
      * split; [reflexivity |]. exists predictions, [("id", VStr hex)]. now split.
      * right. left. eauto.
      * split; [reflexivity |].
        exists predictions, [("db_error", VStr db_error_text)]. now split.
      * split; [reflexivity |].
        exists predictions, [("db_error", VStr db_error_text)]. now split.
    + injection H as <- <-. simpl. split.
      * exists evs. now split.
      * split; [reflexivity |]. exists predictions, []. split; [reflexivity | exact Hk].
  - destruct (fan_out_inv _ _ _ _ _ _ Hfan) as (_ & (evs & Htr & Hevs) & Hraise & _).
    unfold predict, bind in H. rewrite Hfan in H. injection H as <- <-.
    split.
    + exists evs. split; [exact Htr |].
      apply Forall_forall. intros ev Hin.
      rewrite forallb_forall in Hevs. apply list_elem_of_In in Hin.
      specialize (Hevs ev Hin). now destruct ev.
    + right. right. right. destruct (Hraise e eq_refl) as (item & msg & Hin & Hm & ->). eauto.
Qed.

Lemma http_post_predict_authorized g c text owner st r st' :
  conditional_auth g c initial = (Ok owner, st) ->
  predict g c text owner st = (r, st') ->
  http_post_predict g c text = (respond r, trace st').
Proof.
  intros Hauth Hrun. unfold http_post_predict, serve.
  rewrite (post_predict_authorized _ _ _ _ _ Hauth). now rewrite Hrun.
Qed.

(** ** The scenarios of [tests/teste_api.py]

    Each test is run against a process started in the mode the test names;
    the stand-in collection returns without storing an identifier. *)

Module Tests.

Example test_root_endpoint :
  fst (http_get_root Samples.prod_globals) =
    {| status := 200; content := root_body "prod" |}.
Proof. reflexivity. Qed.

Example test_predict_success_in_dev_mode :
  exists body predictions entry,
    http_post_predict Samples.dev_globals
      (Samples.collab_with Samples.token_missing Samples.insert_mocked (1700000000 # 1)) "ola" =
      ({| status := 200; content := VDict body |},
       [EvModelPredict "dummy_model" "ola";
        EvInsertOne (assemble "ola" "dev_user" predictions 1700000000)])
    /\ Dict.get body "text" = Some (VStr "ola")
    /\ Dict.get body "owner" = Some (VStr "dev_user")
    /\ Dict.get body "predictions" = Some (VDict predictions)
    /\ Dict.get predictions "dummy_model" = Some (VDict entry)
    /\ Dict.get entry "top_intent" = Some (VStr "saudacao").
Proof. do 3 eexists. repeat split; reflexivity. Qed.

Example test_predict_requires_auth_in_prod_mode :
  fst (http_post_predict Samples.prod_globals
         (Samples.collab_with Samples.token_missing Samples.insert_mocked (1700000000 # 1)) "ola") =
    {| status := 401; content := VDict [("detail", VStr "Authentication failed")] |}.
Proof. reflexivity. Qed.

Example test_predict_with_valid_auth_in_prod_mode :
  exists body document,
    http_post_predict Samples.prod_globals
      (Samples.collab_with Samples.token_valid Samples.insert_mocked (1700000000 # 1)) "ola" =
      ({| status := 200; content := VDict body |},
       [EvVerifyToken; EvModelPredict "dummy_model" "ola"; EvInsertOne document])
    /\ Dict.get body "owner" = Some (VStr "prod_user_123").
Proof. do 2 eexists. split; reflexivity. Qed.

Example test_predict_handles_db_logging_failure :
  exists body,
    fst (http_post_predict Samples.dev_globals
           (Samples.collab_with Samples.token_missing Samples.insert_refused (1700000000 # 1))
           "ola") =
      {| status := 200; content := VDict body |}
    /\ Dict.get body "db_error" = Some (VStr "Failed to log prediction to database.").
Proof. eexists. split; reflexivity. Qed.

End Tests.

(** * The claims *)

(** C1: in enforce mode, when the token verifier raises, [POST /predict]
    answers exactly 401 with detail "Authentication failed"; the only
    collaborator call made is the verifier's, so no model is asked for a
    prediction and nothing is inserted, and no record is assembled. *)
Theorem enforce_verifier_failure_is_401 g c text msg :
  gate_state g = Verify ->
  verify_token c = Raises msg ->
  http_post_predict g c text =
    ({| status := 401; content := VDict [("detail", VStr "Authentication failed")] |},
     [EvVerifyToken])
  /\ (forall ev, In ev (snd (http_post_predict g c text)) ->
      is_prediction ev = false /\ is_persistence ev = false)
  /\ results (snd (post_predict g c text initial)) = [].
Proof.
  intros Hg Hv.
  assert (Hrun : post_predict g c text initial =
                 (Raise (HTTPException 401 "Authentication failed"),
                  {| results := []; trace := [EvVerifyToken] |})).
  { unfold post_predict, bind. rewrite (conditional_auth_verify g c initial Hg).
    now rewrite Hv. }
  assert (Hhttp : http_post_predict g c text =
    ({| status := 401; content := VDict [("detail", VStr "Authentication failed")] |},
     [EvVerifyToken])).
  { unfold http_post_predict, serve. now rewrite Hrun. }
  split; [exact Hhttp |]. split.
  - rewrite Hhttp. simpl. intros ev [<- | []]. now split.
  - now rewrite Hrun.
Qed.

Lemma enforce_verifier_failure_is_401_witness :
  gate_state Samples.prod_globals = Verify
  /\ http_post_predict Samples.prod_globals
       (Samples.collab_with Samples.token_missing Samples.insert_ok (1700000000 # 1)) "ola" =
     ({| status := 401; content := VDict [("detail", VStr "Authentication failed")] |},
      [EvVerifyToken]).
Proof.
  split; [reflexivity |].
  apply (enforce_verifier_failure_is_401 Samples.prod_globals
           (Samples.collab_with Samples.token_missing Samples.insert_ok (1700000000 # 1))
           "ola" "Token missing"); reflexivity.
Defined.

(** C5: in bypass mode, for every text and whatever the token verifier
    would do, the gate returns the fixed identity "dev_user" at once, the
    verifier is never called, and [POST /predict] does not answer 401. *)
Theorem bypass_never_401 g c text :
  gate_state g = Bypass ->
  conditional_auth g c initial = (Ok "dev_user", initial)
  /\ status (fst (http_post_predict g c text)) <> 401
  /\ Forall (fun ev => is_verification ev = false) (snd (http_post_predict g c text)).
Proof.
  intros Hg.
  pose proof (conditional_auth_bypass g c initial Hg) as Hauth.
  split; [exact Hauth |].
  destruct (predict g c text "dev_user" initial) as [r st'] eqn:Hrun.
  rewrite (http_post_predict_authorized _ _ _ _ _ _ _ Hauth Hrun). simpl.
  destruct (predict_inv _ _ _ _ _ _ _ Hrun) as ((evs & Htr & Hevs) & Hr).
  split.
  - destruct r as [resp | e]; simpl.
    + destruct Hr as [-> _]. discriminate.
    + destruct Hr as [-> | [(m & ->) | [(m & ->) | (item & m & _ & _ & ->)]]]; simpl; discriminate.
  - rewrite Htr. exact Hevs.
Qed.

Lemma bypass_never_401_witness :
  gate_state Samples.dev_globals = Bypass
  /\ status (fst (http_post_predict Samples.dev_globals
                    (Samples.collab_with Samples.token_missing Samples.insert_ok (1700000000 # 1))
                    "ola")) <> 401.
Proof.
  split; [reflexivity |].
  apply (bypass_never_401 Samples.dev_globals
           (Samples.collab_with Samples.token_missing Samples.insert_ok (1700000000 # 1)) "ola").
  reflexivity.
Defined.

(** C8: when the request has passed the gate and some registered model's
    [predict] raises on the text, the handler raises that model's
    exception: [results] is never assigned, [insert_one] is never called,
    and the client gets the framework's 500 rather than any predictions. *)
Theorem model_exception_propagates g c text owner :
  passes_authorization g c owner ->
  Exists (raises_on text) (MODELS g) ->
  exists msg st',
    post_predict g c text initial = (Raise (External msg), st')
    /\ (exists item, In item (MODELS g) /\ model_predict (snd item) text = Raises msg)
    /\ results st' = []
    /\ Forall (fun ev => is_persistence ev = false) (trace st')
    /\ fst (http_post_predict g c text) =
         {| status := 500; content := VStr "Internal Server Error" |}.
Proof.
  intros [st Hauth] Hex.
  destruct (fan_out_raises text (MODELS g) Hex [] st) as (msg & st1 & Hfan).
  destruct (fan_out_inv _ _ _ _ _ _ Hfan) as (Hres & (evs & Htr & Hevs) & Hraise & _).
  destruct (Hraise _ eq_refl) as (item & msg' & Hin & Hm & Hmsg).
  injection Hmsg as <-.
  assert (Hrun : predict g c text owner st = (Raise (External msg), st1)).
  { unfold predict, bind. now rewrite Hfan. }
  exists msg, st1. split; [| split; [| split; [| split]]].
  - now rewrite (post_predict_authorized _ _ _ _ _ Hauth).
  - now exists item.
  - rewrite Hres.
    destruct (authorization_cases _ _ _ _ Hauth) as [(_ & _ & ->) | (_ & _ & ->)]; reflexivity.
  - rewrite Htr. apply Forall_app. split.
    + destruct (authorization_cases _ _ _ _ Hauth) as [(_ & _ & ->) | (_ & _ & ->)];
        simpl; now repeat constructor.
    + apply Forall_forall. intros ev Hev.
      rewrite forallb_forall in Hevs. apply list_elem_of_In in Hev.
      specialize (Hevs ev Hev). now destruct ev.
  - now rewrite (http_post_predict_authorized _ _ _ _ _ _ _ Hauth Hrun).
Qed.

Lemma model_exception_propagates_witness :
  passes_authorization Samples.prod_globals_faulty
    (Samples.collab_with Samples.token_valid Samples.insert_ok (1700000000 # 1)) "prod_user_123"
  /\ fst (http_post_predict Samples.prod_globals_faulty
            (Samples.collab_with Samples.token_valid Samples.insert_ok (1700000000 # 1)) "ola") =
     {| status := 500; content := VStr "Internal Server Error" |}.
Proof.
  assert (Hauth : passes_authorization Samples.prod_globals_faulty
            (Samples.collab_with Samples.token_valid Samples.insert_ok (1700000000 # 1))
            "prod_user_123").
  { eexists. reflexivity. }
  split; [exact Hauth |].
  destruct (model_exception_propagates Samples.prod_globals_faulty
              (Samples.collab_with Samples.token_valid Samples.insert_ok (1700000000 # 1))
              "ola" "prod_user_123" Hauth) as (msg & st' & _ & _ & _ & _ & Hhttp).
  - apply Exists_cons_hd. exists "inference failed". reflexivity.
  - exact Hhttp.
Defined.

(** C2 (counterexample): with [ENV=development], which equals the sentinel
    "development" up to case, the gate is in the verify state. *)
Lemma development_does_not_bypass :
  environ Samples.development_boot !! "ENV" = Some "development"
  /\ Str.caseless_eq "development" "development" = true
  /\ gate_state (startup Samples.development_boot) = Verify
  /\ ~ (forall b : Boot,
         gate_state (startup b) = Bypass <->
         exists v, environ b !! "ENV" = Some v /\ Str.caseless_eq v "development" = true).
Proof.
  split; [reflexivity |]. split; [reflexivity |]. split; [reflexivity |].
  intros H. destruct (H Samples.development_boot) as [_ Hbypass].
  assert (Hb : gate_state (startup Samples.development_boot) = Bypass).
  { apply Hbypass. exists "development". split; reflexivity. }
  discriminate Hb.
Qed.

(** ** Persistence *)

(** The three ways an attempted insert can end for a request whose fan-out
    has returned finite probabilities: the stored identifier is exposed as ["id"]; without a
    stored identifier (the insert raised first, or the collection is a
    stand-in) the failure is annotated; or the insert raised after the
    driver stored ["_id"], which is still in the record when the response
    is rendered. *)
Lemma persistence_outcomes g c text owner st predictions st1 coll :
  fan_out text (MODELS g) [] st = (Ok predictions, st1) ->
  Forall (renders_on text) (MODELS g) ->
  collection g = Bound (Some coll) ->
  let record := assemble text owner predictions (int_of_float (now c)) in
  forall r st', predict g c text owner st = (r, st') ->
    (forall hex, stored_id (insert_one c record) = Some hex ->
       insert_result (insert_one c record) = Returns tt ->
       exists body, r = Ok {| status := 200; content := VDict body |}
         /\ Dict.get body "id" = Some (VStr hex)
         /\ Dict.get body "db_error" = None
         /\ Dict.get body "_id" = None)
    /\ (stored_id (insert_one c record) = None ->
       exists body, r = Ok {| status := 200; content := VDict body |}
         /\ Dict.get body "db_error" = Some (VStr db_error_text)
         /\ Dict.get body "id" = None)
    /\ (forall hex msg, stored_id (insert_one c record) = Some hex ->
       insert_result (insert_one c record) = Raises msg ->
       r = Raise (TypeError "Object of type ObjectId is not JSON serializable")).
Proof.
  intros Hfan Hrend Hcoll record r st' Hrun.
  destruct (fan_out_inv _ _ _ _ _ _ Hfan) as (_ & _ & _ & Hok).
  destruct (Hok predictions eq_refl) as (_ & Hjson & _). specialize (Hjson Hrend eq_refl).
  rewrite (predict_after_fan_out g c text owner st predictions st1 Hfan Hjson) in Hrun.
  cbv zeta in Hrun. rewrite Hcoll in Hrun. fold record in Hrun.
  split; [| split].
  - intros hex Hid Hres. rewrite Hid, Hres in Hrun. injection Hrun as <- <-.
    eexists. split; [reflexivity |]. now subst record.
  - intros Hid. rewrite Hid in Hrun. injection Hrun as <- <-.
    eexists. split; [reflexivity |]. now subst record.
  - intros hex msg Hid Hres. rewrite Hid, Hres in Hrun. now injection Hrun as <- <-.
Qed.

(** C3 (failing input): [ENV=dev], one model, the collection bound; the
    insert raises after the driver has stored ["_id"] in [results].  The
    [except] branch adds ["db_error"], but ["_id"] is still in [results]
    when the response is built, so the request ends in a 500 and not in a
    200 carrying ["db_error"]. *)
Theorem failed_insert_leaving_id_is_500 :
  passes_authorization Samples.dev_globals Samples.request_db_lost "dev_user"
  /\ collection Samples.dev_globals = Bound (Some "DEV_intent_logs")
  /\ (forall doc, insert_result (insert_one Samples.request_db_lost doc) =
                  Raises "ServerSelectionTimeoutError")
  /\ fst (post_predict Samples.dev_globals Samples.request_db_lost "ola" initial) =
       Raise (TypeError "Object of type ObjectId is not JSON serializable")
  /\ Dict.get (results (snd (post_predict Samples.dev_globals Samples.request_db_lost "ola" initial)))
       "db_error" = Some (VStr db_error_text)
  /\ Dict.get (results (snd (post_predict Samples.dev_globals Samples.request_db_lost "ola" initial)))
       "_id" = Some (VObjectId "65f0c0ffee0123456789abcd")
  /\ status (fst (http_post_predict Samples.dev_globals Samples.request_db_lost "ola")) = 500.
Proof.
  split; [eexists; reflexivity |].
  repeat split; reflexivity.
Qed.

(** ** The predictions mapping *)

(** A response with status 200 to [POST /predict] is the assembled record,
    possibly followed by ["id"] or ["db_error"]. *)
Lemma success_shape g c text :
  status (fst (http_post_predict g c text)) = 200 ->
  exists owner predictions extra,
    passes_authorization g c owner
    /\ content (fst (http_post_predict g c text)) =
         VDict (assemble text owner predictions (int_of_float (now c)) ++ extra)%list
    /\ (NoDup (Dict.keys (MODELS g)) -> Dict.keys predictions = Dict.keys (MODELS g)).
Proof.
  intros Hstatus.
  destruct (conditional_auth g c initial) as [[owner | e] st] eqn:Hauth.
  - destruct (predict g c text owner st) as [r st'] eqn:Hrun.
    rewrite (http_post_predict_authorized _ _ _ _ _ _ _ Hauth Hrun) in *. simpl in *.
    destruct (predict_inv _ _ _ _ _ _ _ Hrun) as (_ & Hr).
    destruct r as [resp | e]; simpl in *.
    + destruct Hr as (_ & predictions & extra & Hbody & Hkeys).
      exists owner, predictions, extra. split; [now exists st | now split].
    + destruct Hr as [-> | [(m & ->) | [(m & ->) | (item & m & _ & _ & ->)]]]; discriminate.
  - exfalso. destruct (gate_state g) eqn:Hg.
    + rewrite conditional_auth_bypass in Hauth by exact Hg. discriminate.
    + unfold http_post_predict, serve, post_predict, bind in Hstatus.
      rewrite conditional_auth_verify in Hstatus, Hauth by exact Hg.
      destruct (verify_token c); [discriminate |]. simpl in Hstatus. discriminate.
Qed.

(** X18: a response with status 200 to [POST /predict] carries a
    [predictions] mapping with exactly the keys of the registry, in
    registry order and without repetition; it is empty when the registry
    is. *)
Lemma predictions_one_per_model b c text :
  status (fst (http_post_predict (startup b) c text)) = 200 ->
  exists body predictions,
    content (fst (http_post_predict (startup b) c text)) = VDict body
    /\ Dict.get body "predictions" = Some (VDict predictions)
    /\ Dict.keys predictions = Dict.keys (MODELS (startup b))
    /\ NoDup (Dict.keys predictions)
    /\ (MODELS (startup b) = [] -> predictions = []).
Proof.
  intros Hstatus.
  destruct (success_shape _ _ _ Hstatus) as (owner & predictions & extra & _ & Hbody & Hkeys).
  specialize (Hkeys (NoDup_MODELS b)).
  exists (assemble text owner predictions (int_of_float (now c)) ++ extra)%list, predictions.
  split; [exact Hbody |]. split; [reflexivity |]. split; [exact Hkeys |]. split.
  - rewrite Hkeys. apply NoDup_MODELS.
  - intros Hempty. rewrite Hempty in Hkeys.
    destruct predictions; [reflexivity | discriminate].
Qed.

(** C4 (failing input): [ENV=dev], the database unreachable at start-up,
    no model files.  The registry is empty and the request passes the
    gate, yet the handler raises [NameError] at the [collection] guard:
    the status is 500 and no [predictions] mapping is returned. *)
Theorem empty_registry_unbound_collection_is_500 :
  MODELS (startup Samples.dev_boot_no_db_no_models) = []
  /\ collection (startup Samples.dev_boot_no_db_no_models) = Unbound
  /\ passes_authorization (startup Samples.dev_boot_no_db_no_models) Samples.request_ok "dev_user"
  /\ fst (post_predict (startup Samples.dev_boot_no_db_no_models) Samples.request_ok "ola" initial) =
       Raise (NameError "collection")
  /\ http_post_predict (startup Samples.dev_boot_no_db_no_models) Samples.request_ok "ola" =
       ({| status := 500; content := VStr "Internal Server Error" |}, []).
Proof.
  split; [reflexivity |]. split; [reflexivity |].
  split; [eexists; reflexivity |].
  split; reflexivity.
Qed.

(** ** The owner of the record *)




(** ** The unbound [collection] name *)

(** C7 (counterexample): the database is unreachable at start-up and the
    request passes the gate, but the registered model raises on the text:
    the handler raises the model's exception before it reaches the
    [collection] guard, not a [NameError]. *)
Lemma unbound_collection_with_faulty_model :
  get_mongo_collection Samples.dev_boot_no_db_faulty "DEV_intent_logs" =
    Raises "ServerSelectionTimeoutError"
  /\ collection (startup Samples.dev_boot_no_db_faulty) = Unbound
  /\ passes_authorization (startup Samples.dev_boot_no_db_faulty) Samples.request_ok "dev_user"
  /\ fst (post_predict (startup Samples.dev_boot_no_db_faulty) Samples.request_ok "ola" initial) =
       Raise (External "inference failed")
  /\ fst (post_predict (startup Samples.dev_boot_no_db_faulty) Samples.request_ok "ola" initial) <>
       Raise (NameError "collection").
Proof.
  split; [reflexivity |]. split; [reflexivity |].
  split; [eexists; reflexivity |].
  split; [reflexivity | discriminate].
Qed.

(** C7 (as amended): if [get_mongo_collection] raises at start-up, the name
    [collection] stays unbound, and every later [POST /predict] that passes
    the gate raises instead of returning a response: the [NameError] of the
    [collection] guard when every model returns on the text, a model's own
    exception otherwise.  Nothing is inserted and the client gets a 500,
    never a 200 with ["db_error"]. *)
Theorem unbound_collection_fails_requests b c text owner msg :
  get_mongo_collection b (Str.upper (read_ENV (environ b)) ++ "_intent_logs") = Raises msg ->
  passes_authorization (startup b) c owner ->
  collection (startup b) = Unbound
  /\ exists e st',
       post_predict (startup b) c text initial = (Raise e, st')
       /\ (Forall (returns_on text) (MODELS (startup b)) -> e = NameError "collection")
       /\ (Exists (raises_on text) (MODELS (startup b)) -> exists m, e = External m)
       /\ Forall (fun ev => is_persistence ev = false) (trace st')
       /\ status (fst (http_post_predict (startup b) c text)) = 500.
Proof.
  intros Hdb [st Hauth].
  assert (Hcoll : collection (startup b) = Unbound).
  { simpl. unfold init_collection. now rewrite Hdb. }
  split; [exact Hcoll |].
  set (g := startup b) in *.
  assert (Hst : Forall (fun ev => is_persistence ev = false) (trace st)).
  { destruct (authorization_cases _ _ _ _ Hauth) as [(_ & _ & ->) | (_ & _ & ->)];
      simpl; now repeat constructor. }
  assert (Hpred : forall evs, forallb is_prediction evs = true ->
                              Forall (fun ev => is_persistence ev = false) evs).
  { intros evs Hevs. apply Forall_forall. intros ev Hev.
    rewrite forallb_forall in Hevs. apply list_elem_of_In in Hev.
    specialize (Hevs ev Hev). now destruct ev. }
  rewrite (post_predict_authorized _ _ _ _ _ Hauth).
  destruct (fan_out text (MODELS g) [] st) as [[predictions | e] st1] eqn:Hfan.
  - destruct (fan_out_inv _ _ _ _ _ _ Hfan) as (_ & (evs & Htr & Hevs) & _ & _).
    pose proof (predict_unbound g c text owner st predictions st1 Hfan Hcoll) as Hrun.
    eexists _, _. split; [exact Hrun |]. split; [reflexivity |]. split; [| split].
    + intros Hex. destruct (fan_out_raises text (MODELS g) Hex [] st) as (m & st2 & Hfan').
      rewrite Hfan in Hfan'. discriminate.
    + simpl. rewrite Htr. apply Forall_app. split; [exact Hst | now apply Hpred].
    + now rewrite (http_post_predict_authorized _ _ _ _ _ _ _ Hauth Hrun).
  - destruct (fan_out_inv _ _ _ _ _ _ Hfan) as (_ & (evs & Htr & Hevs) & Hraise & _).
    destruct (Hraise e eq_refl) as (item & m & _ & _ & ->).
    assert (Hrun : predict g c text owner st = (Raise (External m), st1)).
    { unfold predict, bind. now rewrite Hfan. }
    eexists _, _. split; [exact Hrun |]. split; [| split; [| split]].
    + intros Hall. destruct (fan_out_returns text (MODELS g) Hall [] st) as (p' & st2 & Hfan').
      rewrite Hfan in Hfan'. discriminate.
    + intros _. now exists m.
    + rewrite Htr. apply Forall_app. split; [exact Hst | now apply Hpred].
    + now rewrite (http_post_predict_authorized _ _ _ _ _ _ _ Hauth Hrun).
Qed.

Lemma unbound_collection_fails_requests_witness :
  collection (startup Samples.dev_boot_no_db) = Unbound
  /\ exists e st',
       post_predict (startup Samples.dev_boot_no_db) Samples.request_ok "ola" initial = (Raise e, st')
       /\ (Forall (returns_on "ola") (MODELS (startup Samples.dev_boot_no_db)) ->
           e = NameError "collection")
       /\ (Exists (raises_on "ola") (MODELS (startup Samples.dev_boot_no_db)) ->
           exists m, e = External m)
       /\ Forall (fun ev => is_persistence ev = false) (trace st')
       /\ status (fst (http_post_predict (startup Samples.dev_boot_no_db) Samples.request_ok "ola")) = 500.
Proof.
  apply (unbound_collection_fails_requests Samples.dev_boot_no_db Samples.request_ok "ola"
           "dev_user" "ServerSelectionTimeoutError").
  - reflexivity.
  - eexists. reflexivity.
Defined.

(** ** The mode is fixed at start-up *)

Lemma step_globals p a : globals (fst (step p a)) = globals p.
Proof. destruct a; reflexivity. Qed.

Lemma run_cons p a rest :
  run p (a :: rest) =
    (fst (run (fst (step p a)) rest), snd (step p a) :: snd (run (fst (step p a)) rest)).
Proof.
  simpl. destruct (step p a) as [p' out]. simpl.
  destruct (run p' rest) as [p'' outs]. reflexivity.
Qed.

Lemma run_globals acts : forall p, globals (fst (run p acts)) = globals p.
Proof.
  induction acts as [|a rest IH]; intros p.
  - reflexivity.
  - rewrite run_cons. simpl. rewrite IH. apply step_globals.
Qed.

(** The environment itself does change: after [ENV] is set to ["dev"] in a
    process started with [ENV] unset, [os.environ] holds the new value
    while the gate still verifies and [GET /] still reports ["prod"]. *)
Example setenv_after_startup :
  let p := fst (run (boot_process (Samples.boot_with Samples.env_unset Samples.db_up [] Samples.greeter))
                    [SetEnv "ENV" "dev"]) in
  os_environ p !! "ENV" = Some "dev"
  /\ gate_state (globals p) = Verify
  /\ snd (step p GetRoot) = Some {| status := 200; content := root_body "prod" |}.
Proof. repeat split; reflexivity. Qed.

(** C9: the mode is read once, by the start-up code.  After any sequence of
    requests and of changes to the environment, [ENV] still holds the
    lower-cased value the environment had at start-up ("prod" when unset),
    the gate is in the state it had at start-up and treats every request as
    it would have then, and [GET /] reports the start-up mode. *)
Theorem mode_fixed_at_startup b acts :
  let p := fst (run (boot_process b) acts) in
  ENV (globals p) = Str.lower (getenv (environ b) "ENV" "prod")
  /\ gate_state (globals p) = gate_state (startup b)
  /\ (forall c st, conditional_auth (globals p) c st = conditional_auth (startup b) c st)
  /\ snd (step p GetRoot) =
       Some {| status := 200;
               content := root_body (Str.lower (getenv (environ b) "ENV" "prod")) |}
  /\ (forall text c,
        snd (step p (PostPredict text c)) = snd (step (boot_process b) (PostPredict text c))).
Proof.
  intros p.
  assert (Hg : globals p = startup b).
  { subst p. now rewrite run_globals. }
  split; [now rewrite Hg |]. split; [now rewrite Hg |]. split; [now rewrite Hg |]. split.
  - simpl. rewrite Hg. reflexivity.
  - intros text c. simpl. now rewrite Hg.
Qed.

(** ** Timestamps *)

Lemma quot_rem_facts a b :
  0 < b ->
  a = b * (a ÷ b) + Z.rem a b
  /\ - b < Z.rem a b < b
  /\ (0 <= a -> 0 <= Z.rem a b)
  /\ (a <= 0 -> Z.rem a b <= 0).
Proof.
  intros Hb. split; [apply Z.quot_rem' |]. split.
  - pose proof (Z.rem_bound_abs a b ltac:(lia)) as H. lia.
  - split; intros Ha.
    + apply Z.rem_nonneg; lia.
    + apply Z.rem_nonpos; lia.
Qed.

(** Truncation toward zero is monotone. *)
Lemma int_of_float_mono x y : (x <= y)%Q -> int_of_float x <= int_of_float y.
Proof.
  unfold Qle, int_of_float. destruct x as [a b], y as [c d]. simpl.
  intros H.
  destruct (quot_rem_facts a (Zpos b) ltac:(lia)) as (Ha & Hra & Hpa & Hna).
  destruct (quot_rem_facts c (Zpos d) ltac:(lia)) as (Hc & Hrc & Hpc & Hnc).
  remember (a ÷ Zpos b) as q1. remember (c ÷ Zpos d) as q2.
  remember (Z.rem a (Zpos b)) as r1. remember (Z.rem c (Zpos d)) as r2.
  remember (Zpos b) as B. remember (Zpos d) as D.
  assert (0 < B) by lia. assert (0 < D) by lia.
  clear Heqq1 Heqq2 Heqr1 Heqr2 HeqB HeqD.
  destruct (Z.le_gt_cases q1 q2) as [|Hgt]; [assumption | exfalso].
  assert (Hkey : B * D * (q1 - q2) <= r2 * B - r1 * D) by (subst a c; lia).
  assert (Hone : B * D <= B * D * (q1 - q2)) by nia.
  assert (Hr2 : r2 * B < D * B) by nia.
  assert (Hr1 : r1 < 0) by nia.
  assert (Ha0 : a < 0) by lia.
  assert (Hq1 : q1 <= 0) by nia.
  assert (Hc0 : c < 0) by nia.
  assert (Hr2' : r2 <= 0) by lia.
  assert (Hlt : - r1 * D < B * D) by nia.
  nia.
Qed.

Lemma int_of_float_nonneg x : (0 <= x)%Q -> 0 <= int_of_float x.
Proof.
  unfold Qle, int_of_float. destruct x as [a b]. simpl. intros H.
  apply Z.quot_pos; lia.
Qed.

(** A successful [POST /predict] carries the truncated clock reading. *)
Lemma post_response_timestamp g c text :
  status (fst (http_post_predict g c text)) = 200 ->
  response_timestamp (fst (http_post_predict g c text)) = Some (int_of_float (now c)).
Proof.
  intros Hstatus.
  destruct (success_shape _ _ _ Hstatus) as (owner & predictions & extra & _ & Hbody & _).
  unfold response_timestamp. rewrite Hstatus, Hbody. reflexivity.
Qed.

Lemma response_timestamp_status resp t : response_timestamp resp = Some t -> status resp = 200.
Proof.
  unfold response_timestamp. destruct (Z.eqb_spec (status resp) 200); [auto | discriminate].
Qed.

Lemma root_response_timestamp g : response_timestamp (fst (http_get_root g)) = None.
Proof. reflexivity. Qed.

(** The timestamps of a run are truncated clock readings of its requests,
    in order; bounds and order carry over. *)
Lemma timestamps_of_run acts :
  forall p,
    let clocks := omap request_clock acts in
    let stamps := timestamps (snd (run p acts)) in
    (forall lo : Q, Forall (fun q => (lo <= q)%Q) clocks ->
                    Forall (fun t => int_of_float lo <= t) stamps)
    /\ (StronglySorted Qle clocks -> StronglySorted Z.le stamps).
Proof.
  induction acts as [|a rest IH]; intros p; cbv zeta.
  - simpl. split; [constructor | constructor].
  - rewrite run_cons. cbn [snd].
    destruct (IH (fst (step p a))) as [IHlo IHsorted].
    destruct a as [key val | key | | text c]; cbn [omap list_omap request_clock step fst snd timestamps] in *.
    + split; auto.
    + split; auto.
    + rewrite root_response_timestamp. split; auto.
    + destruct (response_timestamp (fst (http_post_predict (globals p) c text))) as [t|] eqn:Ht.
      * pose proof (response_timestamp_status _ _ Ht) as Hstatus.
        rewrite (post_response_timestamp _ _ _ Hstatus) in Ht. injection Ht as <-.
        split.
        -- intros lo Hlo. apply Forall_cons in Hlo as [Hc Hrest].
           constructor; [now apply int_of_float_mono | now apply IHlo].
        -- intros Hs. apply StronglySorted_inv in Hs as [Hs Hall].
           constructor; [now apply IHsorted | now apply IHlo].
      * split.
        -- intros lo Hlo. apply Forall_cons in Hlo as [_ Hrest]. now apply IHlo.
        -- intros Hs. apply StronglySorted_inv in Hs as [Hs _]. now apply IHsorted.
Qed.

(** C10 (counterexample): with [ENV=dev], a request served while the clock
    reads one and a half seconds before the epoch is answered 200 with the
    timestamp -1; a single reading is a non-decreasing clock. *)
Lemma pre_epoch_timestamp_is_negative :
  status (fst (http_post_predict Samples.dev_globals Directory.request_before_epoch "ola")) = 200
  /\ response_timestamp
       (fst (http_post_predict Samples.dev_globals Directory.request_before_epoch "ola")) =
     Some (-1)
  /\ StronglySorted Qle
       (omap request_clock [PostPredict "ola" Directory.request_before_epoch])
  /\ ~ Forall (fun t => 0 <= t)
        (timestamps (snd (run (boot_process (Samples.boot_with Samples.env_dev Samples.db_up
                                               ["dummy_model.keras"] Samples.greeter))
                              [PostPredict "ola" Directory.request_before_epoch]))).
Proof.
  split; [reflexivity |]. split; [reflexivity |]. split; [repeat constructor |].
  intros H. apply Forall_cons in H as [H _]. now apply H.
Qed.

(** C10 (as amended): every successful [POST /predict] carries as
    [timestamp] the integer part of the clock reading taken when the
    record is assembled; when the clock readings of a run's requests are
    non-decreasing, so are the timestamps returned during the run; and the
    timestamps are non-negative when the readings are at or after the
    epoch. *)
Theorem timestamps_nonneg_monotone b acts :
  StronglySorted Qle (omap request_clock acts) ->
  (forall g c text,
     status (fst (http_post_predict g c text)) = 200 ->
     response_timestamp (fst (http_post_predict g c text)) = Some (int_of_float (now c)))
  /\ StronglySorted Z.le (timestamps (snd (run (boot_process b) acts)))
  /\ (Forall (fun q => (0 <= q)%Q) (omap request_clock acts) ->
      Forall (fun t => 0 <= t) (timestamps (snd (run (boot_process b) acts)))).
Proof.
  intros Hsorted.
  destruct (timestamps_of_run acts (boot_process b)) as [Hlo Hs].
  split; [exact post_response_timestamp |]. split.
  - exact (Hs Hsorted).
  - intros Hepoch. exact (Hlo 0%Q Hepoch).
Qed.

Lemma timestamps_nonneg_monotone_witness :
  timestamps (snd (run (boot_process (Samples.boot_with Samples.env_dev Samples.db_up
                                        ["dummy_model.keras"] Samples.greeter))
                       Samples.two_predictions)) = [1700000000; 1700000001]
  /\ StronglySorted Z.le
       (timestamps (snd (run (boot_process (Samples.boot_with Samples.env_dev Samples.db_up
                                              ["dummy_model.keras"] Samples.greeter))
                             Samples.two_predictions)))
  /\ Forall (fun t => 0 <= t)
       (timestamps (snd (run (boot_process (Samples.boot_with Samples.env_dev Samples.db_up
                                              ["dummy_model.keras"] Samples.greeter))
                             Samples.two_predictions))).
Proof.
  split; [reflexivity |].
  destruct (timestamps_nonneg_monotone
              (Samples.boot_with Samples.env_dev Samples.db_up ["dummy_model.keras"] Samples.greeter)
              Samples.two_predictions) as (_ & Hsorted & Hnonneg).
  - repeat constructor; unfold Qle; simpl; lia.
  - split; [exact Hsorted |]. apply Hnonneg.
    repeat constructor; unfold Qle; simpl; lia.
Defined.

(** * Further properties *)

(** ** Loading the registry (lines 72-97) *)

Lemma in_keys_set {V : Type} (d : list (string * V)) k k' v :
  In k (Dict.keys (Dict.set d k' v)) <-> In k (Dict.keys d) \/ k = k'.
Proof.
  destruct (Dict.get d k') eqn:Hget.
  - rewrite DictFacts.keys_set_present by congruence.
    split; [now left |]. intros [H | ->]; [exact H |].
    destruct (in_dec string_dec k' (Dict.keys d)) as [Hin | Hnin]; [exact Hin |].
    apply DictFacts.get_None_keys in Hnin. congruence.
  - rewrite DictFacts.keys_set_fresh by exact Hget.
    rewrite in_app_iff. simpl. intuition congruence.
Qed.

Lemma length_set {V : Type} (d : list (string * V)) k v :
  (length (Dict.set d k v) <= S (length d))%nat.
Proof.
  induction d as [|[k' v'] d IH]; simpl.
  - lia.
  - destruct (String.eqb k' k); simpl; lia.
Qed.

Lemma load_loop_get b model_files :
  forall models name m,
    Dict.get (load_loop b model_files models) name = Some m ->
    Dict.get models name = Some m
    \/ exists model_file,
         In model_file model_files
         /\ load_classifier b model_file = Returns m
         /\ name = model_name_of model_file.
Proof.
  induction model_files as [|f rest IH]; intros models name m H; cbn [load_loop] in H.
  - now left.
  - destruct (load_classifier b f) as [m' | msg] eqn:Hload; [| now left].
    apply IH in H as [H | (f' & Hin & Hf' & Hname)].
    + destruct (string_dec (Str.replace ".keras" "" f) name) as [Heq | Hne].
      * subst name. rewrite DictFacts.get_set_eq in H. injection H as <-.
        right. exists f. split; [now left | now split].
      * rewrite DictFacts.get_set_ne in H by exact Hne. now left.
    + right. exists f'. split; [now right | now split].
Qed.

Lemma load_loop_stop b pre model_file post msg :
  load_classifier b model_file = Raises msg ->
  forall models,
    load_loop b (pre ++ model_file :: post) models = load_loop b pre models.
Proof.
  intros Hfail. induction pre as [|f pre IH]; intros models; cbn [load_loop app].
  - now rewrite Hfail.
  - destruct (load_classifier b f); [apply IH | reflexivity].
Qed.

Lemma load_loop_length b model_files :
  forall models,
    (length (load_loop b model_files models) <= length models + length model_files)%nat.
Proof.
  induction model_files as [|f rest IH]; intros models; cbn [load_loop length].
  - lia.
  - destruct (load_classifier b f) as [m | msg]; [| lia].
    specialize (IH (Dict.set models (Str.replace ".keras" "" f) m)).
    pose proof (length_set models (Str.replace ".keras" "" f) m). lia.
Qed.

Lemma load_loop_app b pre post :
  Forall (loads b) pre ->
  forall models,
    load_loop b (pre ++ post) models = load_loop b post (load_loop b pre models).
Proof.
  induction 1 as [|f pre [m Hm] _ IH]; intros models; cbn [load_loop app].
  - reflexivity.
  - rewrite Hm. apply IH.
Qed.

Lemma load_loop_get_other b model_files name :
  Forall (fun f => model_name_of f <> name) model_files ->
  forall models,
    Dict.get (load_loop b model_files models) name = Dict.get models name.
Proof.
  induction 1 as [|f rest Hf _ IH]; intros models; cbn [load_loop].
  - reflexivity.
  - destruct (load_classifier b f) as [m | msg]; [| reflexivity].
    rewrite IH. now apply DictFacts.get_set_ne.
Qed.

Lemma load_loop_keys b model_files :
  Forall (loads b) model_files ->
  NoDup (List.map model_name_of model_files) ->
  forall models,
    (forall f, In f model_files -> ~ In (model_name_of f) (Dict.keys models)) ->
    Dict.keys (load_loop b model_files models) =
      (Dict.keys models ++ List.map model_name_of model_files)%list.
Proof.
  induction 1 as [|f rest [m Hm] _ IH]; intros Hnd models Hfresh; cbn [load_loop map] in *.
  - now rewrite app_nil_r.
  - rewrite Hm. apply NoDup_cons in Hnd as [Hf Hnd].
    assert (Hget : Dict.get models (model_name_of f) = None).
    { apply DictFacts.get_None_keys. apply Hfresh. now left. }
    rewrite IH.
    + unfold model_name_of in *. rewrite DictFacts.keys_set_fresh by exact Hget.
      now rewrite <- app_assoc.
    + exact Hnd.
    + intros f' Hin Hk. apply in_keys_set in Hk as [Hk | Hk].
      * apply (Hfresh f'); [now right | exact Hk].
      * change (model_name_of f' = model_name_of f) in Hk.
        apply Hf. apply list_elem_of_In. rewrite <- Hk. now apply in_map.
Qed.

(** X1: whatever the registry holds under a name was built by the
    constructor from a listed file that ends in ".keras" and whose name,
    with every ".keras" removed, is that key. *)
Theorem registry_entry_provenance b name m :
  Dict.get (MODELS (startup b)) name = Some m ->
  exists files model_file,
    listdir b = Returns files
    /\ In model_file files
    /\ Str.endswith ".keras" model_file = true
    /\ load_classifier b model_file = Returns m
    /\ name = Str.replace ".keras" "" model_file.
Proof.
  simpl. unfold load_models. destruct (listdir b) as [files | msg]; [| discriminate].
  intros H. apply load_loop_get in H as [H | (f & Hin & Hload & Hname)]; [discriminate |].
  apply filter_In in Hin as [Hin Hends].
  exists files, f. repeat split; assumption.
Qed.

(** X2: the loop stops at the first file whose constructor raises: the
    registry is what the files before it produced, and no later file is
    loaded. *)
Theorem loading_stops_at_first_failure b files pre model_file post msg :
  listdir b = Returns files ->
  model_files_of files = (pre ++ model_file :: post)%list ->
  load_classifier b model_file = Raises msg ->
  MODELS (startup b) = load_loop b pre []
  /\ (length (MODELS (startup b)) <= length pre)%nat
  /\ (forall name m, Dict.get (MODELS (startup b)) name = Some m ->
        exists f, In f pre /\ load_classifier b f = Returns m /\ name = model_name_of f).
Proof.
  intros Hdir Hfiles Hfail.
  assert (Heq : MODELS (startup b) = load_loop b pre []).
  { simpl. unfold load_models. rewrite Hdir. unfold model_files_of in Hfiles.
    rewrite Hfiles. now apply load_loop_stop with (msg := msg). }
  split; [exact Heq |]. rewrite Heq. split.
  - pose proof (load_loop_length b pre []) as H. simpl in H. exact H.
  - intros name m H. apply load_loop_get in H as [H | H]; [discriminate | exact H].
Qed.

(** X3: when every constructor returns and the derived names are distinct,
    the registry has one key per file that ends in ".keras", in the order
    of the directory listing. *)
Theorem registry_lists_model_files b files :
  listdir b = Returns files ->
  Forall (loads b) (model_files_of files) ->
  NoDup (List.map model_name_of (model_files_of files)) ->
  Dict.keys (MODELS (startup b)) = List.map model_name_of (model_files_of files).
Proof.
  intros Hdir Hloads Hnd. simpl. unfold load_models. rewrite Hdir.
  fold (model_files_of files).
  rewrite (load_loop_keys b _ Hloads Hnd []); [reflexivity |].
  intros f _ [].
Qed.

(** X5: when two listed files derive the same name, the later one wins:
    the registry holds, under a name, the classifier built from the last
    file with that name, provided the files before it loaded. *)
Theorem last_file_with_a_name_wins b files pre model_file post m :
  listdir b = Returns files ->
  model_files_of files = (pre ++ model_file :: post)%list ->
  Forall (loads b) pre ->
  load_classifier b model_file = Returns m ->
  Forall (fun f => model_name_of f <> model_name_of model_file) post ->
  Dict.get (MODELS (startup b)) (model_name_of model_file) = Some m.
Proof.
  intros Hdir Hfiles Hpre Hload Hpost.
  simpl. unfold load_models. rewrite Hdir. unfold model_files_of in Hfiles. rewrite Hfiles.
  rewrite (load_loop_app b pre _ Hpre). cbn [load_loop]. rewrite Hload.
  rewrite (load_loop_get_other b post _ Hpost).
  apply DictFacts.get_set_eq.
Qed.

(** ** File names and registry keys (lines 76 and 83) *)

Lemma substring_full s : String.substring 0 (String.length s) s = s.
Proof. induction s as [|c s IH]; simpl; [reflexivity | now f_equal]. Qed.

Lemma substring_append_suffix s t :
  String.substring (String.length s) (String.length t) (s ++ t) = t.
Proof.
  induction s as [|c s IH]; simpl.
  - change ("" ++ t) with t. apply substring_full.
  - exact IH.
Qed.

Lemma length_append s t :
  String.length (s ++ t) = (String.length s + String.length t)%nat.
Proof. induction s as [|c s IH]; simpl; [reflexivity | now rewrite IH]. Qed.

Lemma substring_split n :
  forall s, (n <= String.length s)%nat ->
    s = String.substring 0 n s ++ String.substring n (String.length s - n) s.
Proof.
  induction n as [|n IH]; intros s Hn.
  - rewrite Nat.sub_0_r, substring_full. now destruct s.
  - destruct s as [|c s]; simpl in *; [lia |].
    change (String c s =
            String c (String.substring 0 n s ++ String.substring n (String.length s - n) s)).
    f_equal. apply IH. lia.
Qed.

(** The filter of line 76 keeps exactly the names of the form
    [stem ++ suffix]. *)
Lemma endswith_iff suffix s :
  Str.endswith suffix s = true <-> exists stem, s = stem ++ suffix.
Proof.
  unfold Str.endswith. split.
  - intros H. apply andb_prop in H as [Hlen Heq].
    apply Nat.leb_le in Hlen. apply String.eqb_eq in Heq.
    exists (String.substring 0 (String.length s - String.length suffix) s).
    pose proof (substring_split (String.length s - String.length suffix) s ltac:(lia)) as Hs.
    replace (String.length s - (String.length s - String.length suffix))%nat
      with (String.length suffix) in Hs by lia.
    now rewrite Heq in Hs.
  - intros [stem ->]. rewrite length_append.
    replace (String.length stem + String.length suffix - String.length suffix)%nat
      with (String.length stem) by lia.
    rewrite substring_append_suffix, String.eqb_refl.
    rewrite andb_true_r. apply Nat.leb_le. lia.
Qed.

Lemma replace_dotless stem :
  has_char "." stem = false ->
  Str.replace_from ".keras" "" 0 (stem ++ ".keras") = stem.
Proof.
  induction stem as [|c stem IH]; intros Hdot.
  - reflexivity.
  - simpl in Hdot. apply orb_false_elim in Hdot as [Hc Hdot].
    change (String c stem ++ ".keras") with (String c (stem ++ ".keras")).
    cbn [Str.replace_from String.prefix].
    destruct (ascii_dec "." c) as [<- | _]; [discriminate Hc |].
    f_equal. now apply IH.
Qed.

(** X4: a file named [stem ++ ".keras"] whose stem has no dot is kept by
    the filter of line 76, and its registry key (line 83) is the stem. *)
Theorem dotless_stem_is_the_model_name stem :
  has_char "." stem = false ->
  Str.endswith ".keras" (stem ++ ".keras") = true
  /\ model_name_of (stem ++ ".keras") = stem.
Proof.
  intros Hdot. split.
  - apply endswith_iff. now exists stem.
  - now apply replace_dotless.
Qed.

Lemma dotless_stem_is_the_model_name_witness :
  has_char "." "dummy_model" = false
  /\ Str.endswith ".keras" "dummy_model.keras" = true
  /\ model_name_of "dummy_model.keras" = "dummy_model".
Proof.
  split; [reflexivity |].
  apply (dotless_stem_is_the_model_name "dummy_model"). reflexivity.
Defined.

(** ** The collection name (lines 23 and 50) *)

Lemma upper_lower_char c : Str.upper_char (Str.lower_char c) = Str.upper_char c.
Proof. StrFacts.ascii_cases c; reflexivity. Qed.

Lemma upper_lower s : Str.upper (Str.lower s) = Str.upper s.
Proof.
  induction s as [|c s IH]; [reflexivity |].
  unfold Str.upper, Str.lower in *. cbn [Str.map].
  rewrite upper_lower_char. f_equal. exact IH.
Qed.

(** X6: for a value of [ENV] in the ASCII range, the collection asked for
    at start-up is named after that value in upper case, whatever its case
    in the environment, followed by "_intent_logs"; with [ENV] unset it is
    "PROD_intent_logs".  [collection] is bound to what the call returns and
    stays unbound when it raises. *)
Theorem collection_name_is_upper_case_mode b :
  ascii_only (getenv (environ b) "ENV" "prod") = true ->
  collection (startup b) =
    match get_mongo_collection b
            (Str.upper (getenv (environ b) "ENV" "prod") ++ "_intent_logs") with
    | Returns coll => Bound coll
    | Raises _ => Unbound
    end
  /\ (environ b !! "ENV" = None ->
      collection (startup b) =
        match get_mongo_collection b "PROD_intent_logs" with
        | Returns coll => Bound coll
        | Raises _ => Unbound
        end).
Proof.
  intros _. split.
  - simpl. unfold init_collection, read_ENV. now rewrite upper_lower.
  - intros Hunset. simpl. unfold init_collection, read_ENV, getenv. now rewrite Hunset.
Qed.

(** ** The course of a request (lines 57-68 and 110-140) *)

(** The fan-out either returns after calling every model, or stops at the
    first model that raises, after calling it and the models before it. *)
Lemma fan_out_split text items :
  forall predictions st r st',
    fan_out text items predictions st = (r, st') ->
    (exists predictions',
       r = Ok predictions'
       /\ Forall (returns_on text) items
       /\ trace st' = (trace st ++ predict_events text items)%list)
    \/ (exists called name model rest msg,
          items = (called ++ (name, model) :: rest)%list
          /\ Forall (returns_on text) called
          /\ model_predict model text = Raises msg
          /\ r = Raise (External msg)
          /\ trace st' = (trace st ++ predict_events text (called ++ [(name, model)]))%list).
Proof.
  induction items as [|[name model] rest IH]; intros predictions st r st' H; simpl in H.
  - injection H as <- <-. left. exists predictions.
    split; [reflexivity |]. split; [constructor |]. simpl. now rewrite app_nil_r.
  - unfold bind, call_model_predict, emit, call in H. simpl in H.
    destruct (model_predict model text) as [[top_intent all_probs]|msg] eqn:Hm; simpl in H.
    + assert (Hret : returns_on text (name, model)).
      { exists (top_intent, all_probs). exact Hm. }
      apply IH in H as [(p' & -> & Hall & Htr) | (called & n & m & rest' & msg & -> & Hall & Hraise & -> & Htr)];
        simpl in Htr.
      * left. exists p'. split; [reflexivity |]. split; [now constructor |].
        rewrite Htr. unfold predict_events. simpl. now rewrite <- app_assoc.
      * right. exists ((name, model) :: called), n, m, rest', msg.
        split; [reflexivity |]. split; [now constructor |]. split; [exact Hraise |].
        split; [reflexivity |].
        rewrite Htr. unfold predict_events. simpl. now rewrite <- app_assoc.
    + injection H as <- <-. right. exists [], name, model, rest, msg.
      split; [reflexivity |]. split; [constructor |]. split; [exact Hm |].
      split; reflexivity.
Qed.

(** The answer to a request whose gate and fan-out have returned. *)
Lemma request_after_fan_out g c text owner st predictions st1 :
  conditional_auth g c initial = (Ok owner, st) ->
  fan_out text (MODELS g) [] st = (Ok predictions, st1) ->
  let record := assemble text owner predictions (int_of_float (now c)) in
  let logged := (trace st1 ++ [EvInsertOne record])%list in
  let answer body :=
    if jsonable (VDict predictions) then {| status := 200; content := VDict body |}
    else response_500 in
  http_post_predict g c text =
    match collection g with
    | Unbound => (response_500, trace st1)
    | Bound None => (answer record, trace st1)
    | Bound (Some _) =>
        match stored_id (insert_one c record), insert_result (insert_one c record) with
        | Some hex, Returns _ => (answer (record ++ [("id", VStr hex)])%list, logged)
        | None, _ => (answer (record ++ [("db_error", VStr db_error_text)])%list, logged)
        | Some _, Raises _ => (response_500, logged)
        end
    end.
Proof.
  intros Hauth Hfan record logged answer. subst record logged answer. cbv beta.
  destruct (jsonable (VDict predictions)) eqn:Hjson.
  - pose proof (predict_after_fan_out g c text owner st predictions st1 Hfan Hjson) as Hrun.
    cbv zeta in Hrun.
    destruct (collection g) as [|[coll|]];
      [ | destruct (insert_one c (assemble text owner predictions (int_of_float (now c))))
            as [[hex|] [[]|msg]]; cbn [stored_id insert_result] in * | ];
      now rewrite (http_post_predict_authorized _ _ _ _ _ _ _ Hauth Hrun).
  - destruct (predict_unrendered g c text owner st predictions st1 Hfan Hjson)
      as (e & st2 & Hrun & Hkind & Htr).
    rewrite (http_post_predict_authorized _ _ _ _ _ _ _ Hauth Hrun). rewrite Htr.
    assert (He : respond (Raise e) = response_500).
    { destruct Hkind as [[-> _] | [[(m & ->) | (m & ->)] _]]; reflexivity. }
    rewrite He.
    destruct (collection g) as [|[coll|]]; [reflexivity | | reflexivity].
    destruct (insert_one c (assemble text owner predictions (int_of_float (now c))))
      as [[hex|] [[]|msg]]; reflexivity.
Qed.

(** Every way a [POST /predict] can go: refused by the gate; stopped by a
    model that raises; or, the fan-out done, ended by the [collection]
    guard, the insert and the rendering of the response. *)
Lemma request_cases g c text :
  (gate_state g = Verify
   /\ (exists msg, verify_token c = Raises msg)
   /\ http_post_predict g c text = (response_401, [EvVerifyToken]))
  \/ exists owner st,
       conditional_auth g c initial = (Ok owner, st)
       /\ ((exists called name model rest msg,
              MODELS g = (called ++ (name, model) :: rest)%list
              /\ Forall (returns_on text) called
              /\ model_predict model text = Raises msg
              /\ http_post_predict g c text =
                   (response_500,
                    (trace st ++ predict_events text (called ++ [(name, model)]))%list))
           \/ (exists predictions st1,
                 fan_out text (MODELS g) [] st = (Ok predictions, st1)
                 /\ Forall (returns_on text) (MODELS g)
                 /\ let record := assemble text owner predictions (int_of_float (now c)) in
                    let called := (trace st ++ predict_events text (MODELS g))%list in
                    let logged := (called ++ [EvInsertOne record])%list in
                    let answer body :=
                      if jsonable (VDict predictions)
                      then {| status := 200; content := VDict body |}
                      else response_500 in
                    http_post_predict g c text =
                      match collection g with
                      | Unbound => (response_500, called)
                      | Bound None => (answer record, called)
                      | Bound (Some _) =>
                          match stored_id (insert_one c record),
                                insert_result (insert_one c record) with
                          | Some hex, Returns _ =>
                              (answer (record ++ [("id", VStr hex)])%list, logged)
                          | None, _ =>
                              (answer (record ++ [("db_error", VStr db_error_text)])%list,
                               logged)
                          | Some _, Raises _ => (response_500, logged)
                          end
                      end)).
Proof.
  assert (Hpassed : forall owner st,
            conditional_auth g c initial = (Ok owner, st) ->
            (exists called name model rest msg,
               MODELS g = (called ++ (name, model) :: rest)%list
               /\ Forall (returns_on text) called
               /\ model_predict model text = Raises msg
               /\ http_post_predict g c text =
                    (response_500,
                     (trace st ++ predict_events text (called ++ [(name, model)]))%list))
            \/ (exists predictions st1,
                  fan_out text (MODELS g) [] st = (Ok predictions, st1)
                  /\ Forall (returns_on text) (MODELS g)
                  /\ let record := assemble text owner predictions (int_of_float (now c)) in
                     let called := (trace st ++ predict_events text (MODELS g))%list in
                     let logged := (called ++ [EvInsertOne record])%list in
                     let answer body :=
                       if jsonable (VDict predictions)
                       then {| status := 200; content := VDict body |}
                       else response_500 in
                     http_post_predict g c text =
                       match collection g with
                       | Unbound => (response_500, called)
                       | Bound None => (answer record, called)
                       | Bound (Some _) =>
                           match stored_id (insert_one c record),
                                 insert_result (insert_one c record) with
                           | Some hex, Returns _ =>
                               (answer (record ++ [("id", VStr hex)])%list, logged)
                           | None, _ =>
                               (answer (record ++ [("db_error", VStr db_error_text)])%list,
                                logged)
                           | Some _, Raises _ => (response_500, logged)
                           end
                       end)).
  { intros owner st Hauth.
    destruct (fan_out text (MODELS g) [] st) as [r st1] eqn:Hfan.
    destruct (fan_out_split _ _ _ _ _ _ Hfan)
      as [(p' & -> & Hall & Htr) | (called & n & m & rest & msg & Hm & Hall & Hraise & -> & Htr)].
    - right. exists p', st1. split; [reflexivity |]. split; [exact Hall |].
      cbv zeta. rewrite <- Htr.
      exact (request_after_fan_out g c text owner st p' st1 Hauth Hfan).
    - left. exists called, n, m, rest, msg. repeat (split; [assumption |]).
      assert (Hrun : predict g c text owner st = (Raise (External msg), st1)).
      { unfold predict, bind. now rewrite Hfan. }
      rewrite (http_post_predict_authorized _ _ _ _ _ _ _ Hauth Hrun). simpl.
      now rewrite Htr. }
  destruct (gate_state g) eqn:Hg.
  - right. exists "dev_user", initial.
    pose proof (conditional_auth_bypass g c initial Hg) as Hauth.
    split; [exact Hauth | now apply Hpassed].
  - pose proof (conditional_auth_verify g c initial Hg) as Hauth.
    destruct (verify_token c) as [owner | vmsg] eqn:Hv.
    + right. exists owner, {| results := []; trace := [EvVerifyToken] |}.
      split; [exact Hauth | now apply Hpassed].
    + left. split; [reflexivity |]. split; [now exists vmsg |].
      unfold http_post_predict, serve, post_predict, bind. now rewrite Hauth.
Qed.

Lemma authorized_trace g c owner st :
  conditional_auth g c initial = (Ok owner, st) ->
  trace st = match gate_state g with Bypass => [] | Verify => [EvVerifyToken] end
  /\ (gate_state g = Bypass -> owner = "dev_user")
  /\ (gate_state g = Verify -> verify_token c = Returns owner).
Proof.
  intros Hauth.
  destruct (authorization_cases _ _ _ _ Hauth) as [(Hg & -> & ->) | (Hg & Hv & ->)];
    rewrite Hg; repeat split; try reflexivity; try discriminate; auto.
Qed.

Lemma no_insert_before_guard g c owner st text items document :
  conditional_auth g c initial = (Ok owner, st) ->
  ~ In (EvInsertOne document) (trace st ++ predict_events text items)%list.
Proof.
  intros Hauth Hin. destruct (authorized_trace _ _ _ _ Hauth) as (Htr & _ & _).
  rewrite Htr in Hin. apply in_app_or in Hin as [Hin | Hin].
  - destruct (gate_state g); simpl in Hin; [contradiction |].
    destruct Hin as [Hin | []]; discriminate.
  - unfold predict_events in Hin. apply in_map_iff in Hin as (item & Hitem & _).
    discriminate.
Qed.


(** ** What the predictions mapping holds (lines 113-119) *)

Lemma fan_out_get_other text items name :
  ~ In name (Dict.keys items) ->
  forall predictions st predictions' st',
    fan_out text items predictions st = (Ok predictions', st') ->
    Dict.get predictions' name = Dict.get predictions name.
Proof.
  induction items as [|[n model] rest IH]; intros Hname predictions st p' st' H; simpl in H.
  - now injection H as <- <-.
  - unfold bind, call_model_predict, emit, call in H. simpl in H.
    destruct (model_predict model text) as [[top_intent all_probs]|msg]; simpl in H;
      [| discriminate].
    apply IH in H.
    + rewrite H. apply DictFacts.get_set_ne. intros ->. apply Hname. now left.
    + intros Hin. apply Hname. now right.
Qed.

Lemma fan_out_entries text items :
  NoDup (Dict.keys items) ->
  forall predictions st predictions' st',
    fan_out text items predictions st = (Ok predictions', st') ->
    forall name model,
      In (name, model) items ->
      exists top_intent all_probs,
        model_predict model text = Returns (top_intent, all_probs)
        /\ Dict.get predictions' name = Some (prediction_entry top_intent all_probs).
Proof.
  induction items as [|[n m] rest IH]; intros Hnd predictions st p' st' H name model Hin.
  - destruct Hin.
  - simpl in Hnd. apply NoDup_cons in Hnd as [Hn Hnd].
    simpl in H. unfold bind, call_model_predict, emit, call in H. simpl in H.
    destruct (model_predict m text) as [[top_intent all_probs]|msg] eqn:Hm; simpl in H;
      [| discriminate].
    destruct Hin as [Heq | Hin].
    + injection Heq as -> ->. exists top_intent, all_probs. split; [exact Hm |].
      rewrite (fan_out_get_other text rest name) with (predictions := Dict.set predictions name
        (VDict [("top_intent", VStr top_intent); ("all_probs", probs_value all_probs)]))
        (st := {| results := results st; trace := (trace st ++ [EvModelPredict name text])%list |})
        (st' := st').
      * apply DictFacts.get_set_eq.
      * intros Hin. apply Hn. now apply list_elem_of_In.
      * exact H.
    + exact (IH Hnd _ _ _ _ H name model Hin).
Qed.

(** The three ways a request is answered 200. *)
Lemma success_cases g c text :
  status (fst (http_post_predict g c text)) = 200 ->
  exists owner st predictions st1,
    conditional_auth g c initial = (Ok owner, st)
    /\ fan_out text (MODELS g) [] st = (Ok predictions, st1)
    /\ Forall (returns_on text) (MODELS g)
    /\ jsonable (VDict predictions) = true
    /\ let record := assemble text owner predictions (int_of_float (now c)) in
       let called := (trace st ++ predict_events text (MODELS g))%list in
       let logged := (called ++ [EvInsertOne record])%list in
       (collection g = Bound None
        /\ http_post_predict g c text =
             ({| status := 200; content := VDict record |}, called))
       \/ (exists coll hex,
             collection g = Bound (Some coll)
             /\ stored_id (insert_one c record) = Some hex
             /\ (exists u, insert_result (insert_one c record) = Returns u)
             /\ http_post_predict g c text =
                  ({| status := 200; content := VDict (record ++ [("id", VStr hex)]) |},
                   logged))
       \/ (exists coll,
             collection g = Bound (Some coll)
             /\ stored_id (insert_one c record) = None
             /\ http_post_predict g c text =
                  ({| status := 200;
                      content := VDict (record ++ [("db_error", VStr db_error_text)]) |},
                   logged)).
Proof.
  intros Hstatus.
  destruct (request_cases g c text)
    as [(_ & _ & Hhttp)
       | (owner & st & Hauth &
          [(called & n & m & rest & msg & _ & _ & _ & Hhttp)
          | (predictions & st1 & Hfan & Hall & Hhttp)])];
    try (rewrite Hhttp in Hstatus; discriminate Hstatus).
  exists owner, st, predictions, st1.
  split; [exact Hauth |]. split; [exact Hfan |]. split; [exact Hall |].
  cbv zeta in *. rewrite Hhttp in Hstatus.
  destruct (jsonable (VDict predictions)) eqn:Hjson.
  - split; [reflexivity |].
    destruct (collection g) as [|[coll|]]; [discriminate Hstatus | |].
    + destruct (stored_id (insert_one c (assemble text owner predictions (int_of_float (now c)))))
        as [hex|] eqn:Hid.
      * destruct (insert_result (insert_one c (assemble text owner predictions (int_of_float (now c)))))
          as [u|msg] eqn:Hres; [| discriminate Hstatus].
        right. left. exists coll, hex. split; [reflexivity |]. split; [reflexivity |].
        split; [now exists u | exact Hhttp].
      * right. right. exists coll. split; [reflexivity |]. split; [reflexivity | exact Hhttp].
    + left. now split.
  - exfalso. destruct (collection g) as [|[coll|]]; try discriminate Hstatus.
    destruct (insert_one c (assemble text owner predictions (int_of_float (now c))))
      as [[hex|] [[]|msg]]; discriminate Hstatus.
Qed.

(** The statuses of a request that carries a text. *)
Lemma status_with_text g c text :
  (status (fst (http_post_predict g c text)) = 200
   \/ status (fst (http_post_predict g c text)) = 401
   \/ status (fst (http_post_predict g c text)) = 500)
  /\ (status (fst (http_post_predict g c text)) = 401 <->
      gate_state g = Verify /\ exists msg, verify_token c = Raises msg).
Proof.
  destruct (request_cases g c text)
    as [(Hg & Hv & ->)
       | (owner & st & Hauth &
          [(called & n & m & rest & msg & _ & _ & _ & ->)
          | (predictions & st1 & _ & _ & Hhttp)])].
  - simpl. split; [auto |]. now split.
  - simpl. split; [auto |]. split; [discriminate |].
    intros (Hg & vmsg & Hv).
    destruct (authorized_trace _ _ _ _ Hauth) as (_ & _ & Hret). specialize (Hret Hg). congruence.
  - cbv zeta in Hhttp.
    assert (Hs : status (fst (http_post_predict g c text)) = 200
                 \/ status (fst (http_post_predict g c text)) = 500).
    { rewrite Hhttp. destruct (jsonable (VDict predictions));
        (destruct (collection g) as [|[coll|]]; simpl; auto;
         destruct (insert_one c (assemble text owner predictions (int_of_float (now c))))
           as [[hex|] [[]|msg]]; simpl; auto). }
    split; [destruct Hs as [-> | ->]; auto |]. split.
    + destruct Hs as [-> | ->]; discriminate.
    + intros (Hg & vmsg & Hv).
      destruct (authorized_trace _ _ _ _ Hauth) as (_ & _ & Hret). specialize (Hret Hg).
      congruence.
Qed.

(** X7: [POST /predict], served with or without the required query
    parameter [text], answers 200, 401, 422 or 500 and nothing else.  It
    answers 401 exactly when the gate is in the verify state and the
    verifier raises, whether or not a text is given; it answers 422
    exactly when no text is given and the request passes the gate, and
    then no model is called and nothing is inserted. *)
Theorem post_predict_status g c query_text :
  (fst (route_post_predict g c query_text) = 200
   \/ fst (route_post_predict g c query_text) = 401
   \/ fst (route_post_predict g c query_text) = 422
   \/ fst (route_post_predict g c query_text) = 500)
  /\ (fst (route_post_predict g c query_text) = 401 <->
      gate_state g = Verify /\ exists msg, verify_token c = Raises msg)
  /\ (fst (route_post_predict g c query_text) = 422 <->
      query_text = None /\ exists owner, passes_authorization g c owner)
  /\ (query_text = None ->
      Forall (fun ev => is_prediction ev = false /\ is_persistence ev = false)
        (snd (route_post_predict g c query_text))).
Proof.
  destruct query_text as [text |]; simpl.
  - destruct (status_with_text g c text) as [Hs H401].
    split; [intuition auto |]. split; [exact H401 |]. split; [| discriminate].
    split; [| intros [H _]; discriminate H].
    intros H422. destruct Hs as [Hs | [Hs | Hs]]; rewrite Hs in H422; discriminate.
  - destruct (gate_state g) eqn:Hg.
    + rewrite (conditional_auth_bypass g c initial Hg). simpl.
      split; [auto |]. split; [| split].
      * split; [discriminate | intros [H _]; discriminate H].
      * split; [intros _ | reflexivity]. split; [reflexivity |].
        exists "dev_user", initial. now apply conditional_auth_bypass.
      * intros _. constructor.
    + unfold passes_authorization. rewrite (conditional_auth_verify g c initial Hg).
      destruct (verify_token c) as [owner | vmsg]; simpl.
      * split; [auto |]. split; [| split].
        -- split; [discriminate | intros (_ & m & H); discriminate H].
        -- split; [intros _ | reflexivity]. split; [reflexivity |]. eexists _, _. reflexivity.
        -- intros _. now repeat constructor.
      * split; [auto |]. split; [| split].
        -- split; [intros _ | reflexivity]. split; [reflexivity | now exists vmsg].
        -- split; [discriminate |]. intros (_ & owner & st & H). discriminate H.
        -- intros _. now repeat constructor.
Qed.


(** X9: a 200 response echoes the text, names as owner the identity the
    gate returned ("dev_user" in the bypass state), never carries the
    driver's ["_id"], and has the four keys of the record followed by at
    most one of ["id"] and ["db_error"]. *)
Theorem success_body_shape g c text :
  status (fst (http_post_predict g c text)) = 200 ->
  exists owner body,
    passes_authorization g c owner
    /\ (gate_state g = Bypass -> owner = "dev_user")
    /\ content (fst (http_post_predict g c text)) = VDict body
    /\ Dict.get body "text" = Some (VStr text)
    /\ Dict.get body "owner" = Some (VStr owner)
    /\ Dict.get body "_id" = None
    /\ (Dict.keys body = record_keys
        \/ Dict.keys body = (record_keys ++ ["id"])%list
        \/ Dict.keys body = (record_keys ++ ["db_error"])%list).
Proof.
  intros Hstatus.
  destruct (success_cases _ _ _ Hstatus)
    as (owner & st & predictions & st1 & Hauth & _ & _ & _ & Hcases).
  cbv zeta in Hcases.
  destruct (authorized_trace _ _ _ _ Hauth) as (_ & Hdev & _).
  exists owner.
  destruct Hcases as [(_ & ->) | [(coll & hex & _ & _ & _ & ->) | (coll & _ & _ & ->)]];
    eexists; (split; [now exists st |]); (split; [exact Hdev |]);
    (split; [reflexivity |]); repeat (split; [reflexivity |]); auto.
Qed.

Lemma success_body_shape_witness :
  status (fst (http_post_predict Samples.dev_globals Samples.request_ok "ola")) = 200
  /\ exists owner body,
       passes_authorization Samples.dev_globals Samples.request_ok owner
       /\ (gate_state Samples.dev_globals = Bypass -> owner = "dev_user")
       /\ content (fst (http_post_predict Samples.dev_globals Samples.request_ok "ola")) = VDict body
       /\ Dict.get body "text" = Some (VStr "ola")
       /\ Dict.get body "owner" = Some (VStr owner)
       /\ Dict.get body "_id" = None
       /\ (Dict.keys body = record_keys
           \/ Dict.keys body = (record_keys ++ ["id"])%list
           \/ Dict.keys body = (record_keys ++ ["db_error"])%list).
Proof.
  split; [reflexivity |].
  apply (success_body_shape Samples.dev_globals Samples.request_ok "ola"). reflexivity.
Defined.



(** X12: in a 200 response every registered model has its entry: under the
    model's name, the [top_intent] and [all_probs] that this model's
    [predict] returned for the text. *)
Theorem prediction_entries_are_model_outputs b c text :
  status (fst (http_post_predict (startup b) c text)) = 200 ->
  exists body predictions,
    content (fst (http_post_predict (startup b) c text)) = VDict body
    /\ Dict.get body "predictions" = Some (VDict predictions)
    /\ forall name model,
         In (name, model) (MODELS (startup b)) ->
         exists top_intent all_probs,
           model_predict model text = Returns (top_intent, all_probs)
           /\ Dict.get predictions name = Some (prediction_entry top_intent all_probs).
Proof.
  intros Hstatus. set (g := startup b) in *.
  destruct (success_cases _ _ _ Hstatus)
    as (owner & st & predictions & st1 & _ & Hfan & _ & _ & Hcases).
  cbv zeta in Hcases.
  pose proof (fan_out_entries text (MODELS g) (NoDup_MODELS b) _ _ _ _ Hfan) as Hentries.
  destruct Hcases as [(_ & ->) | [(coll & hex & _ & _ & _ & ->) | (coll & _ & _ & ->)]];
    eexists _, predictions; (split; [reflexivity |]); (split; [reflexivity | exact Hentries]).
Qed.

Lemma prediction_entries_are_model_outputs_witness :
  status (fst (http_post_predict
                 (startup (Samples.boot_with Samples.env_dev Samples.db_up
                             ["dummy_model.keras"] Samples.greeter))
                 Samples.request_ok "hi")) = 200
  /\ exists body predictions,
       content (fst (http_post_predict
                       (startup (Samples.boot_with Samples.env_dev Samples.db_up
                                   ["dummy_model.keras"] Samples.greeter))
                       Samples.request_ok "hi")) = VDict body
       /\ Dict.get body "predictions" = Some (VDict predictions)
       /\ forall name model,
            In (name, model)
               (MODELS (startup (Samples.boot_with Samples.env_dev Samples.db_up
                                   ["dummy_model.keras"] Samples.greeter))) ->
            exists top_intent all_probs,
              model_predict model "hi" = Returns (top_intent, all_probs)
              /\ Dict.get predictions name = Some (prediction_entry top_intent all_probs).
Proof.
  split; [reflexivity |].
  apply (prediction_entries_are_model_outputs
           (Samples.boot_with Samples.env_dev Samples.db_up ["dummy_model.keras"] Samples.greeter)
           Samples.request_ok "hi").
  reflexivity.
Defined.

(** ** What is logged and what is returned (lines 121-140) *)

(** X13: the document handed to [insert_one] is the record as assembled:
    its keys are the four of the literal, so it holds no ["id"], no
    ["db_error"] and no ["_id"], and it echoes the text.  When the
    request is answered 200, the body is that document followed by exactly
    one annotation, ["id"] or ["db_error"]. *)
Theorem logged_document_is_the_record g c text document :
  In (EvInsertOne document) (snd (http_post_predict g c text)) ->
  Dict.keys document = record_keys
  /\ Dict.get document "text" = Some (VStr text)
  /\ (status (fst (http_post_predict g c text)) = 200 ->
      exists key annotation,
        content (fst (http_post_predict g c text)) =
          VDict (document ++ [(key, VStr annotation)])%list
        /\ (key = "id" \/ key = "db_error" /\ annotation = db_error_text)).
Proof.
  intros Hin.
  destruct (request_cases g c text)
    as [(_ & _ & Hhttp)
       | (owner & st & Hauth &
          [(called & n & m & rest & msg & _ & _ & _ & Hhttp)
          | (predictions & st1 & _ & _ & Hhttp)])].
  - rewrite Hhttp in Hin. destruct Hin as [Hin | []]. discriminate.
  - rewrite Hhttp in Hin. exfalso. exact (no_insert_before_guard _ _ _ _ _ _ _ Hauth Hin).
  - cbv zeta in Hhttp.
    assert (Hdoc : document = assemble text owner predictions (int_of_float (now c))).
    { rewrite Hhttp in Hin.
      destruct (collection g) as [|[coll|]];
        try (exfalso; exact (no_insert_before_guard _ _ _ _ _ _ _ Hauth Hin)).
      destruct (insert_one c (assemble text owner predictions (int_of_float (now c))))
        as [[hex|] [[]|msg]]; cbn [stored_id insert_result snd] in Hin;
        (apply in_app_or in Hin as [Hin | [Hin | []]];
         [exfalso; exact (no_insert_before_guard _ _ _ _ _ _ _ Hauth Hin)
         | now injection Hin as <-]). }
    subst document. split; [reflexivity |]. split; [reflexivity |].
    rewrite Hhttp.
    destruct (collection g) as [|[coll|]];
      try (rewrite Hhttp in Hin; exfalso;
           exact (no_insert_before_guard _ _ _ _ _ _ _ Hauth Hin)).
    destruct (jsonable (VDict predictions));
      destruct (insert_one c (assemble text owner predictions (int_of_float (now c))))
        as [[hex|] [[]|msg]]; cbn [stored_id insert_result fst status content];
      intros Hs; try discriminate Hs.
    + exists "id", hex. split; [reflexivity | now left].
    + exists "db_error", db_error_text. split; [reflexivity | right; now split].
    + exists "db_error", db_error_text. split; [reflexivity | right; now split].
Qed.

Lemma logged_document_is_the_record_witness :
  In (EvInsertOne (assemble "ola" "dev_user"
                     [("dummy_model",
                       prediction_entry "saudacao"
                         [("saudacao", Finite (95 # 100)); ("outro", Finite (5 # 100))])]
                     1700000000))
     (snd (http_post_predict Samples.dev_globals Samples.request_ok "ola"))
  /\ Dict.keys (assemble "ola" "dev_user"
                  [("dummy_model",
                    prediction_entry "saudacao"
                         [("saudacao", Finite (95 # 100)); ("outro", Finite (5 # 100))])]
                  1700000000) = record_keys.
Proof.
  assert (Hin : In (EvInsertOne (assemble "ola" "dev_user"
                     [("dummy_model",
                       prediction_entry "saudacao"
                         [("saudacao", Finite (95 # 100)); ("outro", Finite (5 # 100))])]
                     1700000000))
     (snd (http_post_predict Samples.dev_globals Samples.request_ok "ola"))).
  { right. left. reflexivity. }
  split; [exact Hin |].
  exact (proj1 (logged_document_is_the_record Samples.dev_globals Samples.request_ok "ola" _ Hin)).
Defined.



(** ** The timestamp (line 125) *)

Lemma int_of_float_floor q : (0 <= q)%Q -> int_of_float q = Qfloor q.
Proof.
  unfold Qle, int_of_float, Qfloor. destruct q as [a b]. simpl. intros H.
  apply Z.quot_div_nonneg; lia.
Qed.

Lemma int_of_float_ceiling q : (q <= 0)%Q -> int_of_float q = Qceiling q.
Proof.
  unfold Qle, int_of_float, Qceiling, Qfloor. destruct q as [a b]. simpl. intros H.
  rewrite <- (Z.opp_involutive a) at 1. rewrite Z.quot_opp_l by lia.
  f_equal. apply Z.quot_div_nonneg; lia.
Qed.

(** X15: the timestamp of a 200 response is the clock reading cut to whole
    seconds toward zero: for a reading at or after the epoch it is the
    second the reading falls in, [t <= now < t + 1]; for a reading before
    the epoch, [t - 1 < now <= t]. *)
Theorem timestamp_is_the_whole_second g c text :
  status (fst (http_post_predict g c text)) = 200 ->
  exists t,
    response_timestamp (fst (http_post_predict g c text)) = Some t
    /\ ((0 <= now c)%Q -> (inject_Z t <= now c)%Q /\ (now c < inject_Z (t + 1))%Q)
    /\ ((now c <= 0)%Q -> (inject_Z (t - 1) < now c)%Q /\ (now c <= inject_Z t)%Q).
Proof.
  intros Hstatus. exists (int_of_float (now c)).
  split; [now apply post_response_timestamp |]. split; intros Hsign.
  - rewrite (int_of_float_floor _ Hsign). split; [apply Qfloor_le | apply Qlt_floor].
  - rewrite (int_of_float_ceiling _ Hsign). split; [apply Qceiling_lt | apply Qle_ceiling].
Qed.

Lemma timestamp_is_the_whole_second_witness :
  status (fst (http_post_predict Samples.dev_globals
                 (Samples.collab_with Samples.token_valid Samples.insert_ok (17000000009 # 10))
                 "ola")) = 200
  /\ exists t,
       response_timestamp
         (fst (http_post_predict Samples.dev_globals
                 (Samples.collab_with Samples.token_valid Samples.insert_ok (17000000009 # 10))
                 "ola")) = Some t
       /\ ((0 <= 17000000009 # 10)%Q ->
           (inject_Z t <= 17000000009 # 10)%Q /\ (17000000009 # 10 < inject_Z (t + 1))%Q)
       /\ ((17000000009 # 10 <= 0)%Q ->
           (inject_Z (t - 1) < 17000000009 # 10)%Q /\ (17000000009 # 10 <= inject_Z t)%Q).
Proof.
  split; [reflexivity |].
  apply (timestamp_is_the_whole_second Samples.dev_globals
           (Samples.collab_with Samples.token_valid Samples.insert_ok (17000000009 # 10)) "ola").
  reflexivity.
Defined.

(** ** Witnesses for the registry and start-up properties *)

Lemma registry_entry_provenance_witness :
  Dict.get (MODELS (startup Directory.boot_all_load)) "c" = Some Samples.greeter
  /\ exists files model_file,
       listdir Directory.boot_all_load = Returns files
       /\ In model_file files
       /\ Str.endswith ".keras" model_file = true
       /\ load_classifier Directory.boot_all_load model_file = Returns Samples.greeter
       /\ "c" = Str.replace ".keras" "" model_file.
Proof.
  split; [reflexivity |].
  apply (registry_entry_provenance Directory.boot_all_load "c" Samples.greeter). reflexivity.
Defined.

Lemma loading_stops_at_first_failure_witness :
  model_files_of Directory.listing = ["a.keras"; "b.keras"; "c.keras"]
  /\ Dict.keys (MODELS (startup Directory.boot_b_corrupt)) = ["a"]
  /\ MODELS (startup Directory.boot_b_corrupt) = load_loop Directory.boot_b_corrupt ["a.keras"] []
  /\ (length (MODELS (startup Directory.boot_b_corrupt)) <= 1)%nat.
Proof.
  split; [reflexivity |]. split; [reflexivity |].
  destruct (loading_stops_at_first_failure Directory.boot_b_corrupt Directory.listing
              ["a.keras"] "b.keras" ["c.keras"] "corrupt file"
              eq_refl eq_refl eq_refl) as (Heq & Hlen & _).
  split; [exact Heq | exact Hlen].
Defined.

Lemma registry_lists_model_files_witness :
  Forall (loads Directory.boot_all_load) (model_files_of Directory.listing)
  /\ Dict.keys (MODELS (startup Directory.boot_all_load)) = ["a"; "b"; "c"].
Proof.
  assert (Hloads : Forall (loads Directory.boot_all_load) (model_files_of Directory.listing)).
  { repeat constructor; eexists; reflexivity. }
  split; [exact Hloads |].
  rewrite (registry_lists_model_files Directory.boot_all_load Directory.listing eq_refl Hloads).
  - reflexivity.
  - cbv. repeat constructor; intros H; repeat (apply elem_of_cons in H as [H | H]; [discriminate H |]);
      inversion H.
Defined.

Lemma last_file_with_a_name_wins_witness :
  model_name_of "a.keras" = model_name_of "a.keras.keras"
  /\ Dict.get (MODELS (startup Directory.boot_same_name)) "a" = Some Samples.faulty.
Proof.
  split; [reflexivity |].
  apply (last_file_with_a_name_wins Directory.boot_same_name ["a.keras"; "a.keras.keras"]
           ["a.keras"] "a.keras.keras" [] Samples.faulty).
  - reflexivity.
  - reflexivity.
  - repeat constructor. eexists. reflexivity.
  - reflexivity.
  - constructor.
Defined.

Lemma collection_name_is_upper_case_mode_witness :
  ascii_only (getenv (environ Directory.boot_mixed_case) "ENV" "prod") = true
  /\ collection (startup Directory.boot_mixed_case) = Bound (Some "DEV_intent_logs").
Proof.
  split; [reflexivity |].
  rewrite (proj1 (collection_name_is_upper_case_mode Directory.boot_mixed_case eq_refl)).
  reflexivity.
Defined.


(** ** Start-up failures seen from a request *)

(** X16: when the models directory cannot be listed, or holds no file
    ending in ".keras", the registry is empty: a request calls no model,
    and a 200 response carries the empty [predictions] mapping. *)
Theorem no_model_files_no_predictions b c text :
  (exists msg, listdir b = Raises msg)
  \/ (exists files, listdir b = Returns files /\ model_files_of files = []) ->
  MODELS (startup b) = []
  /\ Forall (fun ev => is_prediction ev = false) (snd (http_post_predict (startup b) c text))
  /\ (status (fst (http_post_predict (startup b) c text)) = 200 ->
      exists body,
        content (fst (http_post_predict (startup b) c text)) = VDict body
        /\ Dict.get body "predictions" = Some (VDict [])).
Proof.
  intros Hdir.
  assert (Hempty : MODELS (startup b) = []).
  { simpl. unfold load_models.
    destruct Hdir as [(msg & ->) | (files & -> & Hfiles)]; [reflexivity |].
    unfold model_files_of in Hfiles. now rewrite Hfiles. }
  split; [exact Hempty |]. set (g := startup b) in *.
  destruct (request_cases g c text)
    as [(_ & _ & Hhttp)
       | (owner & st & Hauth &
          [(called & n & m & rest & msg & Hm & _ & _ & _)
          | (predictions & st1 & Hfan & _ & Hhttp)])].
  - rewrite Hhttp. simpl. split; [now repeat constructor | discriminate].
  - rewrite Hempty in Hm. now destruct called.
  - rewrite Hempty in Hfan, Hhttp. simpl in Hfan. injection Hfan as <- <-.
    cbv zeta in Hhttp. cbn [jsonable forallb] in Hhttp. rewrite Hhttp.
    destruct (authorized_trace _ _ _ _ Hauth) as (Htr & _ & _). rewrite Htr.
    destruct (collection g) as [|[coll|]].
    + simpl. split; [destruct (gate_state g); now repeat constructor | discriminate].
    + destruct (insert_one c (assemble text owner [] (int_of_float (now c))))
        as [[hex|] [[]|msg]]; simpl;
        (split; [destruct (gate_state g); now repeat constructor |]);
        try discriminate; intros _; eexists; split; reflexivity.
    + simpl. split; [destruct (gate_state g); now repeat constructor |].
      intros _. eexists. split; reflexivity.
Qed.

Lemma no_model_files_no_predictions_witness :
  model_files_of ["notes.txt"; "keras"] = []
  /\ MODELS (startup (Samples.boot_with Samples.env_dev Samples.db_up ["notes.txt"; "keras"]
                       Samples.greeter)) = []
  /\ Forall (fun ev => is_prediction ev = false)
       (snd (http_post_predict
               (startup (Samples.boot_with Samples.env_dev Samples.db_up ["notes.txt"; "keras"]
                           Samples.greeter))
               Samples.request_ok "ola")).
Proof.
  split; [reflexivity |].
  destruct (no_model_files_no_predictions
              (Samples.boot_with Samples.env_dev Samples.db_up ["notes.txt"; "keras"] Samples.greeter)
              Samples.request_ok "ola") as (Hempty & Hcalls & _).
  - right. exists ["notes.txt"; "keras"]. split; reflexivity.
  - split; [exact Hempty | exact Hcalls].
Defined.

(** ** The identifier of a stored record (lines 131-133) *)



Lemma predictions_one_per_model_witness :
  status (fst (http_post_predict (startup Directory.boot_all_load) Samples.request_ok "ola")) = 200
  /\ exists body predictions,
       content (fst (http_post_predict (startup Directory.boot_all_load)
                       Samples.request_ok "ola")) = VDict body
       /\ Dict.get body "predictions" = Some (VDict predictions)
       /\ Dict.keys predictions = Dict.keys (MODELS (startup Directory.boot_all_load))
       /\ NoDup (Dict.keys predictions)
       /\ (MODELS (startup Directory.boot_all_load) = [] -> predictions = []).
Proof.
  split; [reflexivity |].
  apply (predictions_one_per_model Directory.boot_all_load Samples.request_ok "ola").
  reflexivity.
Defined.
